(** * bego: hardware-level input synthesis for Windows

    A shallow embedding of the [bego] library (include/bego.h,
    include/bego_win.h, src/key_converter.cpp, src/bego_win.cpp,
    src/bego_keyboard.cpp, src/bego_mouse.cpp) and the properties of its
    design document that can be settled on it.

    Conventions.
    - C++ [int] is a 32-bit two's complement integer, carried as [Z] with
      the wrap-around written out ([Int.wrap]); [WORD], [uint16_t] and
      [wchar_t] are 16-bit unsigned; [char] is the signed 8-bit type of
      the Windows tool chains.
    - The operating system (display metrics, cursor position, keyboard
      layout, [SendInput]) is a record of collaborators, [OS].
    - A member function is a computation in the monad [M]: it threads the
      object and the log of batches handed to the injection sink, and ends
      normally, with a thrown [InputError], or with a hardware trap. *)

From Stdlib Require Import ZArith List Bool Lia String Ascii.
Import ListNotations.
Set Warnings "-notation-for-abbreviation".
Local Open Scope Z_scope.

(** ** Machine integers *)

Module Int.

Definition modulus : Z := 2 ^ 32.
Definition half_modulus : Z := 2 ^ 31.
Definition max_signed : Z := half_modulus - 1.
Definition min_signed : Z := - half_modulus.

(** Reduction of a mathematical integer to the value a 32-bit signed
    register holds. *)
Definition wrap (z : Z) : Z := (z + half_modulus) mod modulus - half_modulus.

Definition in_range (z : Z) : Prop := min_signed <= z <= max_signed.

Definition add (a b : Z) : Z := wrap (a + b).
Definition sub (a b : Z) : Z := wrap (a - b).
Definition mul (a b : Z) : Z := wrap (a * b).
Definition neg (a : Z) : Z := wrap (- a).

(** [a / b] of C++: truncation toward zero; no result when [b] is zero
    (the processor traps). *)
Definition div (a b : Z) : option Z :=
  if b =? 0 then None else Some (wrap (Z.quot a b)).

(** Conversion to a 16-bit unsigned type. *)
Definition u16 (z : Z) : Z := z mod 2 ^ 16.

End Int.

(** ** Enumerations of bego.h *)

Inductive Direction := Click | Press | Release.

Inductive Button :=
  | Left | Middle | Right | Back | Forward
  | ScrollUp | ScrollDown | ScrollLeft | ScrollRight.

Inductive Axis := Horizontal | Vertical.

Inductive Coordinate := Abs | Rel.

(** [InputError::Type]. *)
Inductive ErrorType := Simulate | InvalidInput | Mapping.

(** [enum class Key].  The enumerators live in their own name space, as in
    the source; [End] is written [End_]. *)
Module Key.

Inductive t :=
  | A | B | C | D | E | F | G | H | I | J | K | L | M
  | N | O | P | Q | R | S | T | U | V | W | X | Y | Z
  | Num0 | Num1 | Num2 | Num3 | Num4 | Num5 | Num6 | Num7 | Num8 | Num9
  | F1 | F2 | F3 | F4 | F5 | F6 | F7 | F8 | F9 | F10 | F11 | F12
  | F13 | F14 | F15 | F16 | F17 | F18 | F19 | F20 | F21 | F22 | F23 | F24
  | Return | Tab | Space | Backspace | Escape | Delete | CapsLock
  | Control | Alt | Shift | Super
  | RightControl | RightAlt | RightShift | RightSuper
  | Up | Down | Left | Right | Home | End_ | PageUp | PageDown | Insert
  | Numpad0 | Numpad1 | Numpad2 | Numpad3 | Numpad4
  | Numpad5 | Numpad6 | Numpad7 | Numpad8 | Numpad9
  | NumpadMultiply | NumpadAdd | NumpadSubtract | NumpadDivide
  | NumpadDecimal
  | PrintScreen | ScrollLock | Pause | Menu
  | Unicode.

(** All enumerators, in declaration order. *)
Definition all : list t :=
  [ A; B; C; D; E; F; G; H; I; J; K; L; M;
    N; O; P; Q; R; S; T; U; V; W; X; Y; Z;
    Num0; Num1; Num2; Num3; Num4; Num5; Num6; Num7; Num8; Num9;
    F1; F2; F3; F4; F5; F6; F7; F8; F9; F10; F11; F12;
    F13; F14; F15; F16; F17; F18; F19; F20; F21; F22; F23; F24;
    Return; Tab; Space; Backspace; Escape; Delete; CapsLock;
    Control; Alt; Shift; Super;
    RightControl; RightAlt; RightShift; RightSuper;
    Up; Down; Left; Right; Home; End_; PageUp; PageDown; Insert;
    Numpad0; Numpad1; Numpad2; Numpad3; Numpad4;
    Numpad5; Numpad6; Numpad7; Numpad8; Numpad9;
    NumpadMultiply; NumpadAdd; NumpadSubtract; NumpadDivide;
    NumpadDecimal;
    PrintScreen; ScrollLock; Pause; Menu;
    Unicode ].

(** The underlying value of an enumerator: its position in the
    declaration.  [operator==] compares these values. *)
Definition to_nat (k : t) : nat :=
  match k with
  | A => 0 | B => 1 | C => 2 | D => 3 | E => 4 | F => 5 | G => 6 | H => 7
  | I => 8 | J => 9 | K => 10 | L => 11 | M => 12 | N => 13 | O => 14
  | P => 15 | Q => 16 | R => 17 | S => 18 | T => 19 | U => 20 | V => 21
  | W => 22 | X => 23 | Y => 24 | Z => 25 | Num0 => 26 | Num1 => 27
  | Num2 => 28 | Num3 => 29 | Num4 => 30 | Num5 => 31 | Num6 => 32
  | Num7 => 33 | Num8 => 34 | Num9 => 35 | F1 => 36 | F2 => 37 | F3 => 38
  | F4 => 39 | F5 => 40 | F6 => 41 | F7 => 42 | F8 => 43 | F9 => 44
  | F10 => 45 | F11 => 46 | F12 => 47 | F13 => 48 | F14 => 49 | F15 => 50
  | F16 => 51 | F17 => 52 | F18 => 53 | F19 => 54 | F20 => 55 | F21 => 56
  | F22 => 57 | F23 => 58 | F24 => 59 | Return => 60 | Tab => 61
  | Space => 62 | Backspace => 63 | Escape => 64 | Delete => 65
  | CapsLock => 66 | Control => 67 | Alt => 68 | Shift => 69 | Super => 70
  | RightControl => 71 | RightAlt => 72 | RightShift => 73
  | RightSuper => 74 | Up => 75 | Down => 76 | Left => 77 | Right => 78
  | Home => 79 | End_ => 80 | PageUp => 81 | PageDown => 82 | Insert => 83
  | Numpad0 => 84 | Numpad1 => 85 | Numpad2 => 86 | Numpad3 => 87
  | Numpad4 => 88 | Numpad5 => 89 | Numpad6 => 90 | Numpad7 => 91
  | Numpad8 => 92 | Numpad9 => 93 | NumpadMultiply => 94 | NumpadAdd => 95
  | NumpadSubtract => 96 | NumpadDivide => 97 | NumpadDecimal => 98
  | PrintScreen => 99 | ScrollLock => 100 | Pause => 101 | Menu => 102
  | Unicode => 103
  end.

Definition eqb (a b : t) : bool := Nat.eqb (to_nat a) (to_nat b).

End Key.

(** ** Constants of the Windows SDK used by the library *)

Module Win32.

(** Virtual-key codes (winuser.h). *)
Notation VK_BACK := (0x08) (only parsing).
Notation VK_TAB := (0x09) (only parsing).
Notation VK_RETURN := (0x0D) (only parsing).
Notation VK_SHIFT := (0x10) (only parsing).
Notation VK_CONTROL := (0x11) (only parsing).
Notation VK_MENU := (0x12) (only parsing).
Notation VK_PAUSE := (0x13) (only parsing).
Notation VK_CAPITAL := (0x14) (only parsing).
Notation VK_ESCAPE := (0x1B) (only parsing).
Notation VK_SPACE := (0x20) (only parsing).
Notation VK_PRIOR := (0x21) (only parsing).
Notation VK_NEXT := (0x22) (only parsing).
Notation VK_END := (0x23) (only parsing).
Notation VK_HOME := (0x24) (only parsing).
Notation VK_LEFT := (0x25) (only parsing).
Notation VK_UP := (0x26) (only parsing).
Notation VK_RIGHT := (0x27) (only parsing).
Notation VK_DOWN := (0x28) (only parsing).
Notation VK_SNAPSHOT := (0x2C) (only parsing).
Notation VK_INSERT := (0x2D) (only parsing).
Notation VK_DELETE := (0x2E) (only parsing).
Notation VK_LWIN := (0x5B) (only parsing).
Notation VK_RWIN := (0x5C) (only parsing).
Notation VK_APPS := (0x5D) (only parsing).
Notation VK_NUMPAD0 := (0x60) (only parsing).
Notation VK_NUMPAD1 := (0x61) (only parsing).
Notation VK_NUMPAD2 := (0x62) (only parsing).
Notation VK_NUMPAD3 := (0x63) (only parsing).
Notation VK_NUMPAD4 := (0x64) (only parsing).
Notation VK_NUMPAD5 := (0x65) (only parsing).
Notation VK_NUMPAD6 := (0x66) (only parsing).
Notation VK_NUMPAD7 := (0x67) (only parsing).
Notation VK_NUMPAD8 := (0x68) (only parsing).
Notation VK_NUMPAD9 := (0x69) (only parsing).
Notation VK_MULTIPLY := (0x6A) (only parsing).
Notation VK_ADD := (0x6B) (only parsing).
Notation VK_SUBTRACT := (0x6D) (only parsing).
Notation VK_DECIMAL := (0x6E) (only parsing).
Notation VK_DIVIDE := (0x6F) (only parsing).
Notation VK_F1 := (0x70) (only parsing).
Notation VK_F2 := (0x71) (only parsing).
Notation VK_F3 := (0x72) (only parsing).
Notation VK_F4 := (0x73) (only parsing).
Notation VK_F5 := (0x74) (only parsing).
Notation VK_F6 := (0x75) (only parsing).
Notation VK_F7 := (0x76) (only parsing).
Notation VK_F8 := (0x77) (only parsing).
Notation VK_F9 := (0x78) (only parsing).
Notation VK_F10 := (0x79) (only parsing).
Notation VK_F11 := (0x7A) (only parsing).
Notation VK_F12 := (0x7B) (only parsing).
Notation VK_F13 := (0x7C) (only parsing).
Notation VK_F14 := (0x7D) (only parsing).
Notation VK_F15 := (0x7E) (only parsing).
Notation VK_F16 := (0x7F) (only parsing).
Notation VK_F17 := (0x80) (only parsing).
Notation VK_F18 := (0x81) (only parsing).
Notation VK_F19 := (0x82) (only parsing).
Notation VK_F20 := (0x83) (only parsing).
Notation VK_F21 := (0x84) (only parsing).
Notation VK_F22 := (0x85) (only parsing).
Notation VK_F23 := (0x86) (only parsing).
Notation VK_F24 := (0x87) (only parsing).
Notation VK_NUMLOCK := (0x90) (only parsing).
Notation VK_SCROLL := (0x91) (only parsing).
Notation VK_RSHIFT := (0xA1) (only parsing).
Notation VK_RCONTROL := (0xA3) (only parsing).
Notation VK_RMENU := (0xA5) (only parsing).

(** Character literals ['0'..'9'] and ['A'..'Z'], which are the virtual-key
    codes of the digit and letter keys. *)
Notation chr_0 := (0x30) (only parsing).
Notation chr_1 := (0x31) (only parsing).
Notation chr_2 := (0x32) (only parsing).
Notation chr_3 := (0x33) (only parsing).
Notation chr_4 := (0x34) (only parsing).
Notation chr_5 := (0x35) (only parsing).
Notation chr_6 := (0x36) (only parsing).
Notation chr_7 := (0x37) (only parsing).
Notation chr_8 := (0x38) (only parsing).
Notation chr_9 := (0x39) (only parsing).
Notation chr_A := (0x41) (only parsing).
Notation chr_B := (0x42) (only parsing).
Notation chr_C := (0x43) (only parsing).
Notation chr_D := (0x44) (only parsing).
Notation chr_E := (0x45) (only parsing).
Notation chr_F := (0x46) (only parsing).
Notation chr_G := (0x47) (only parsing).
Notation chr_H := (0x48) (only parsing).
Notation chr_I := (0x49) (only parsing).
Notation chr_J := (0x4A) (only parsing).
Notation chr_K := (0x4B) (only parsing).
Notation chr_L := (0x4C) (only parsing).
Notation chr_M := (0x4D) (only parsing).
Notation chr_N := (0x4E) (only parsing).
Notation chr_O := (0x4F) (only parsing).
Notation chr_P := (0x50) (only parsing).
Notation chr_Q := (0x51) (only parsing).
Notation chr_R := (0x52) (only parsing).
Notation chr_S := (0x53) (only parsing).
Notation chr_T := (0x54) (only parsing).
Notation chr_U := (0x55) (only parsing).
Notation chr_V := (0x56) (only parsing).
Notation chr_W := (0x57) (only parsing).
Notation chr_X := (0x58) (only parsing).
Notation chr_Y := (0x59) (only parsing).
Notation chr_Z := (0x5A) (only parsing).

(** Flags of [KEYBDINPUT.dwFlags]. *)
Definition KEYEVENTF_EXTENDEDKEY : Z := 0x0001.
Definition KEYEVENTF_KEYUP : Z := 0x0002.
Definition KEYEVENTF_UNICODE : Z := 0x0004.
Definition KEYEVENTF_SCANCODE : Z := 0x0008.

(** Flags of [MOUSEINPUT.dwFlags]. *)
Definition MOUSEEVENTF_MOVE : Z := 0x0001.
Definition MOUSEEVENTF_LEFTDOWN : Z := 0x0002.
Definition MOUSEEVENTF_LEFTUP : Z := 0x0004.
Definition MOUSEEVENTF_RIGHTDOWN : Z := 0x0008.
Definition MOUSEEVENTF_RIGHTUP : Z := 0x0010.
Definition MOUSEEVENTF_MIDDLEDOWN : Z := 0x0020.
Definition MOUSEEVENTF_MIDDLEUP : Z := 0x0040.
Definition MOUSEEVENTF_XDOWN : Z := 0x0080.
Definition MOUSEEVENTF_XUP : Z := 0x0100.
Definition MOUSEEVENTF_WHEEL : Z := 0x0800.
Definition MOUSEEVENTF_HWHEEL : Z := 0x1000.
Definition MOUSEEVENTF_ABSOLUTE : Z := 0x8000.

Definition WHEEL_DELTA : Z := 120.

(** Translation kinds of [MapVirtualKeyEx]. *)
Definition MAPVK_VSC_TO_VK_EX : Z := 3.
Definition MAPVK_VK_TO_VSC_EX : Z := 4.

(** The [INPUT] structure: a tagged union of [MOUSEINPUT] and [KEYBDINPUT]
    (the hardware variant is not used by the library). *)
Inductive INPUT :=
  | INPUT_MOUSE (dwFlags mouseData dx dy dwExtraInfo : Z)
  | INPUT_KEYBOARD (dwFlags wVk wScan dwExtraInfo : Z).

End Win32.
Import Win32.

(** ** Outcomes of a call *)

(** A call returns, throws an [InputError] of some type, or stops the
    process on an integer division by zero. *)
Inductive outcome (A : Type) :=
  | Ok (a : A)
  | Throw (e : ErrorType)
  | Trap.
Arguments Ok {A} a.
Arguments Throw {A} e.
Arguments Trap {A}.

(** ** key_converter.cpp *)

(** The static table of [key_to_vk]. *)
Definition key_map : list (Key.t * Z) :=
  [ (Key.A, chr_A); (Key.B, chr_B); (Key.C, chr_C); (Key.D, chr_D);
    (Key.E, chr_E); (Key.F, chr_F); (Key.G, chr_G); (Key.H, chr_H);
    (Key.I, chr_I); (Key.J, chr_J); (Key.K, chr_K); (Key.L, chr_L);
    (Key.M, chr_M); (Key.N, chr_N); (Key.O, chr_O); (Key.P, chr_P);
    (Key.Q, chr_Q); (Key.R, chr_R); (Key.S, chr_S); (Key.T, chr_T);
    (Key.U, chr_U); (Key.V, chr_V); (Key.W, chr_W); (Key.X, chr_X);
    (Key.Y, chr_Y); (Key.Z, chr_Z);
    (Key.Num0, chr_0); (Key.Num1, chr_1); (Key.Num2, chr_2);
    (Key.Num3, chr_3); (Key.Num4, chr_4); (Key.Num5, chr_5);
    (Key.Num6, chr_6); (Key.Num7, chr_7); (Key.Num8, chr_8);
    (Key.Num9, chr_9);
    (Key.F1, VK_F1); (Key.F2, VK_F2); (Key.F3, VK_F3); (Key.F4, VK_F4);
    (Key.F5, VK_F5); (Key.F6, VK_F6); (Key.F7, VK_F7); (Key.F8, VK_F8);
    (Key.F9, VK_F9); (Key.F10, VK_F10); (Key.F11, VK_F11);
    (Key.F12, VK_F12); (Key.F13, VK_F13); (Key.F14, VK_F14);
    (Key.F15, VK_F15); (Key.F16, VK_F16); (Key.F17, VK_F17);
    (Key.F18, VK_F18); (Key.F19, VK_F19); (Key.F20, VK_F20);
    (Key.F21, VK_F21); (Key.F22, VK_F22); (Key.F23, VK_F23);
    (Key.F24, VK_F24);
    (Key.Return, VK_RETURN); (Key.Tab, VK_TAB); (Key.Space, VK_SPACE);
    (Key.Backspace, VK_BACK); (Key.Escape, VK_ESCAPE);
    (Key.Delete, VK_DELETE); (Key.CapsLock, VK_CAPITAL);
    (Key.Control, VK_CONTROL); (Key.Alt, VK_MENU); (Key.Shift, VK_SHIFT);
    (Key.Super, VK_LWIN); (Key.RightControl, VK_RCONTROL);
    (Key.RightAlt, VK_RMENU); (Key.RightShift, VK_RSHIFT);
    (Key.RightSuper, VK_RWIN);
    (Key.Up, VK_UP); (Key.Down, VK_DOWN); (Key.Left, VK_LEFT);
    (Key.Right, VK_RIGHT); (Key.Home, VK_HOME); (Key.End_, VK_END);
    (Key.PageUp, VK_PRIOR); (Key.PageDown, VK_NEXT);
    (Key.Insert, VK_INSERT);
    (Key.Numpad0, VK_NUMPAD0); (Key.Numpad1, VK_NUMPAD1);
    (Key.Numpad2, VK_NUMPAD2); (Key.Numpad3, VK_NUMPAD3);
    (Key.Numpad4, VK_NUMPAD4); (Key.Numpad5, VK_NUMPAD5);
    (Key.Numpad6, VK_NUMPAD6); (Key.Numpad7, VK_NUMPAD7);
    (Key.Numpad8, VK_NUMPAD8); (Key.Numpad9, VK_NUMPAD9);
    (Key.NumpadMultiply, VK_MULTIPLY); (Key.NumpadAdd, VK_ADD);
    (Key.NumpadSubtract, VK_SUBTRACT); (Key.NumpadDivide, VK_DIVIDE);
    (Key.NumpadDecimal, VK_DECIMAL);
    (Key.PrintScreen, VK_SNAPSHOT); (Key.ScrollLock, VK_SCROLL);
    (Key.Pause, VK_PAUSE); (Key.Menu, VK_APPS) ].

(** [std::unordered_map::find]. *)
Fixpoint map_find (key : Key.t) (m : list (Key.t * Z)) : option Z :=
  match m with
  | [] => None
  | (k, v) :: rest => if Key.eqb k key then Some v else map_find key rest
  end.

Definition key_to_vk (key : Key.t) : outcome Z :=
  match map_find key key_map with
  | Some vk => Ok vk
  | None =>
      if Key.eqb key Key.Unicode then Ok 0 (* For Unicode, the VK is 0 *)
      else Throw Mapping
  end.

Definition vk_to_key (vk : Z) : outcome Key.t :=
  match vk with
  | chr_A => Ok Key.A | chr_B => Ok Key.B | chr_C => Ok Key.C
  | chr_D => Ok Key.D | chr_E => Ok Key.E | chr_F => Ok Key.F
  | chr_G => Ok Key.G | chr_H => Ok Key.H | chr_I => Ok Key.I
  | chr_J => Ok Key.J | chr_K => Ok Key.K | chr_L => Ok Key.L
  | chr_M => Ok Key.M | chr_N => Ok Key.N | chr_O => Ok Key.O
  | chr_P => Ok Key.P | chr_Q => Ok Key.Q | chr_R => Ok Key.R
  | chr_S => Ok Key.S | chr_T => Ok Key.T | chr_U => Ok Key.U
  | chr_V => Ok Key.V | chr_W => Ok Key.W | chr_X => Ok Key.X
  | chr_Y => Ok Key.Y | chr_Z => Ok Key.Z
  | chr_0 => Ok Key.Num0 | chr_1 => Ok Key.Num1 | chr_2 => Ok Key.Num2
  | chr_3 => Ok Key.Num3 | chr_4 => Ok Key.Num4 | chr_5 => Ok Key.Num5
  | chr_6 => Ok Key.Num6 | chr_7 => Ok Key.Num7 | chr_8 => Ok Key.Num8
  | chr_9 => Ok Key.Num9
  | VK_F1 => Ok Key.F1 | VK_F2 => Ok Key.F2 | VK_F3 => Ok Key.F3
  | VK_F4 => Ok Key.F4 | VK_F5 => Ok Key.F5 | VK_F6 => Ok Key.F6
  | VK_F7 => Ok Key.F7 | VK_F8 => Ok Key.F8 | VK_F9 => Ok Key.F9
  | VK_F10 => Ok Key.F10 | VK_F11 => Ok Key.F11 | VK_F12 => Ok Key.F12
  | VK_F13 => Ok Key.F13 | VK_F14 => Ok Key.F14 | VK_F15 => Ok Key.F15
  | VK_F16 => Ok Key.F16 | VK_F17 => Ok Key.F17 | VK_F18 => Ok Key.F18
  | VK_F19 => Ok Key.F19 | VK_F20 => Ok Key.F20 | VK_F21 => Ok Key.F21
  | VK_F22 => Ok Key.F22 | VK_F23 => Ok Key.F23 | VK_F24 => Ok Key.F24
  | VK_RETURN => Ok Key.Return | VK_TAB => Ok Key.Tab
  | VK_SPACE => Ok Key.Space | VK_BACK => Ok Key.Backspace
  | VK_ESCAPE => Ok Key.Escape | VK_DELETE => Ok Key.Delete
  | VK_CAPITAL => Ok Key.CapsLock
  | VK_CONTROL => Ok Key.Control | VK_MENU => Ok Key.Alt
  | VK_SHIFT => Ok Key.Shift | VK_LWIN => Ok Key.Super
  | VK_RCONTROL => Ok Key.RightControl | VK_RMENU => Ok Key.RightAlt
  | VK_RSHIFT => Ok Key.RightShift | VK_RWIN => Ok Key.RightSuper
  | VK_UP => Ok Key.Up | VK_DOWN => Ok Key.Down | VK_LEFT => Ok Key.Left
  | VK_RIGHT => Ok Key.Right | VK_HOME => Ok Key.Home
  | VK_END => Ok Key.End_ | VK_PRIOR => Ok Key.PageUp
  | VK_NEXT => Ok Key.PageDown | VK_INSERT => Ok Key.Insert
  | VK_NUMPAD0 => Ok Key.Numpad0 | VK_NUMPAD1 => Ok Key.Numpad1
  | VK_NUMPAD2 => Ok Key.Numpad2 | VK_NUMPAD3 => Ok Key.Numpad3
  | VK_NUMPAD4 => Ok Key.Numpad4 | VK_NUMPAD5 => Ok Key.Numpad5
  | VK_NUMPAD6 => Ok Key.Numpad6 | VK_NUMPAD7 => Ok Key.Numpad7
  | VK_NUMPAD8 => Ok Key.Numpad8 | VK_NUMPAD9 => Ok Key.Numpad9
  | VK_MULTIPLY => Ok Key.NumpadMultiply | VK_ADD => Ok Key.NumpadAdd
  | VK_SUBTRACT => Ok Key.NumpadSubtract
  | VK_DIVIDE => Ok Key.NumpadDivide | VK_DECIMAL => Ok Key.NumpadDecimal
  | VK_SNAPSHOT => Ok Key.PrintScreen | VK_SCROLL => Ok Key.ScrollLock
  | VK_PAUSE => Ok Key.Pause | VK_APPS => Ok Key.Menu
  | _ => Throw Mapping
  end.

(** [Bego::is_extended_key]. *)
Definition is_extended_key (vk : Z) : bool :=
  match vk with
  | VK_RMENU | VK_RCONTROL
  | VK_UP | VK_DOWN | VK_LEFT | VK_RIGHT
  | VK_INSERT | VK_DELETE | VK_HOME | VK_END | VK_PRIOR | VK_NEXT
  | VK_NUMLOCK | VK_SNAPSHOT | VK_DIVIDE => true
  | _ => false
  end.

(** A key has a native mapping when it is an entry of the table. *)
Definition has_native_mapping (k : Key.t) : bool :=
  match map_find k key_map with Some _ => true | None => false end.


(** ** std::vector, as far as the library uses it *)

(** The object keeps its held keys in [std::vector]s which it extends with
    [push_back] and shrinks with the erase-remove idiom: a vector is the
    list of its elements. *)
Module Vec.

Record t (A : Type) := mk { elems : list A }.
Arguments mk {A} elems.
Arguments elems {A} _.

Definition empty {A} : t A := mk [].

Definition size {A} (v : t A) : nat := List.length (elems v).

(** [v.push_back(x)]. *)
Definition push_back {A} (v : t A) (x : A) : t A :=
  mk (elems v ++ [x]).

(** [v.erase(std::remove(v.begin(), v.end(), x), v.end())]: the elements
    different from [x] stay, in their order. *)
Definition erase_remove {A} (eqb : A -> A -> bool) (v : t A) (x : A) : t A :=
  mk (filter (fun y => negb (eqb y x)) (elems v)).

End Vec.

(** ** Settings and the object *)

Definition EVENT_MARKER : Z := 0x12345678.

Module Settings.

Record t := mk {
  windows_dw_extra_info : Z;
  release_keys_when_dropped : bool;
  windows_subject_to_mouse_speed_and_acceleration_level : bool
}.

(** [Settings::Settings()]. *)
Definition default : t := mk EVENT_MARKER true false.

End Settings.

Record Bego := mkBego {
  held_keys : Vec.t Key.t;
  held_scancodes : Vec.t Z;
  release_keys_when_dropped : bool;
  dw_extra_info : Z;
  windows_subject_to_mouse_speed_and_acceleration_level : bool
}.

(** [Bego::Bego(const Settings&)]. *)
Definition Bego_new (settings : Settings.t) : Bego :=
  mkBego Vec.empty Vec.empty
    (Settings.release_keys_when_dropped settings)
    (if negb (Settings.windows_dw_extra_info settings =? 0)
     then Settings.windows_dw_extra_info settings
     else EVENT_MARKER)
    (Settings.windows_subject_to_mouse_speed_and_acceleration_level settings).

Definition set_held_keys (b : Bego) (v : Vec.t Key.t) : Bego :=
  mkBego v (held_scancodes b) (release_keys_when_dropped b)
    (dw_extra_info b)
    (windows_subject_to_mouse_speed_and_acceleration_level b).

Definition set_held_scancodes (b : Bego) (v : Vec.t Z) : Bego :=
  mkBego (held_keys b) v (release_keys_when_dropped b)
    (dw_extra_info b)
    (windows_subject_to_mouse_speed_and_acceleration_level b).

(** ** The operating system and the monad of member functions *)

(** What the library asks of Windows.  [SM_CXSCREEN] and [SM_CYSCREEN]
    are the values of [GetSystemMetrics] for these metrics;
    [GetCursorPos] is the pointer position, if the query succeeds;
    [MapVirtualKeyEx code map_type] is the translation for the layout of
    the foreground window; [SendInput_accepts] decides, from the batches
    handed over so far and the present one, whether the injection
    succeeds; [uninitialized] is the content of the local array that
    [text] passes to [queue_char] without ever writing to it. *)
Record OS := mkOS {
  SM_CXSCREEN : Z;
  SM_CYSCREEN : Z;
  GetCursorPos : option (Z * Z);
  MapVirtualKeyEx : Z -> Z -> Z;
  SendInput_accepts : list (list INPUT) -> list INPUT -> bool;
  uninitialized : Z * Z
}.

(** The object and the batches handed to the injection sink, oldest
    first. *)
Record State := mkState { self : Bego; sent : list (list INPUT) }.

Definition M (A : Type) : Type := State -> outcome A * State.

Definition ret {A} (a : A) : M A := fun st => (Ok a, st).

Definition bind {A B} (c : M A) (k : A -> M B) : M B :=
  fun st =>
    match c st with
    | (Ok a, st') => k a st'
    | (Throw e, st') => (Throw e, st')
    | (Trap, st') => (Trap, st')
    end.

Definition throw {A} (e : ErrorType) : M A := fun st => (Throw e, st).

Definition trap {A} : M A := fun st => (Trap, st).

(** A pure, fallible computation that reads the object. *)
Definition reading {A} (f : Bego -> outcome A) : M A :=
  fun st => (f (self st), st).

Definition update (f : Bego -> Bego) : M unit :=
  fun st => (Ok tt, mkState (f (self st)) (sent st)).

Declare Scope bego_scope.
Delimit Scope bego_scope with bego.
Notation "x <- c1 ;; c2" := (bind c1 (fun x => c2))
  (at level 61, c1 at next level, right associativity) : bego_scope.
Notation "' pat <- c1 ;; c2" :=
  (bind c1 (fun x => match x with pat => c2 end))
  (at level 61, pat pattern, c1 at next level, right associativity)
  : bego_scope.
Notation "c1 ;; c2" := (bind c1 (fun _ => c2))
  (at level 61, right associativity) : bego_scope.
Local Open Scope bego_scope.

(** Sequencing of pure fallible steps. *)
Definition obind {A B} (o : outcome A) (k : A -> outcome B) : outcome B :=
  match o with
  | Ok a => k a
  | Throw e => Throw e
  | Trap => Trap
  end.

(** Modelled from the spec: the helpers [create_mouse_event] and
    [create_keybd_event] are declared in bego_win.h and their definitions
    are not among the sources; per their documentation each fills one
    [INPUT] structure with its arguments. *)
Definition create_mouse_event (flags data dx dy dw_extra_info : Z) : INPUT :=
  INPUT_MOUSE flags data dx dy dw_extra_info.

Definition create_keybd_event (flags vk scan dw_extra_info : Z) : INPUT :=
  INPUT_KEYBOARD flags vk scan dw_extra_info.

Section Library.

Variable os : OS.

(** Modelled from the spec: [send_input] is declared in bego_win.h and its
    definition is not among the sources.  It hands the whole batch to the
    sink in one call; a failure of the sink is an [InputError] of type
    [Simulate]. *)
Definition send_input (input : list INPUT) : M unit :=
  fun st =>
    let st' := mkState (self st) (sent st ++ [input]) in
    if SendInput_accepts os (sent st) input then (Ok tt, st')
    else (Throw Simulate, st').

(** ** bego_win.cpp *)

(** [Bego::translate_key]: the result of [MapVirtualKeyEx] for the layout
    of the foreground window, cut to 16 bits. *)
Definition translate_key (input map_type : Z) : Z :=
  Int.u16 (MapVirtualKeyEx os input map_type).

Definition key_down (direction : Direction) : bool :=
  match direction with Click | Press => true | Release => false end.

Definition key_up (direction : Direction) : bool :=
  match direction with Click | Release => true | Press => false end.

(** [Bego::queue_key]; the queue is returned. *)
Definition queue_key (b : Bego) (input_queue : list INPUT)
    (key : Key.t) (direction : Direction) : outcome (list INPUT) :=
  obind (key_to_vk key) (fun vk =>
    let scan := translate_key vk MAPVK_VK_TO_VSC_EX in
    let keyflags := 0 in
    let keyflags :=
      if is_extended_key vk then Z.lor keyflags KEYEVENTF_EXTENDEDKEY
      else keyflags in
    let input_queue :=
      if key_down direction
      then input_queue ++ [create_keybd_event keyflags vk scan (dw_extra_info b)]
      else input_queue in
    let input_queue :=
      if key_up direction
      then input_queue ++
           [create_keybd_event (Z.lor keyflags KEYEVENTF_KEYUP) vk scan
              (dw_extra_info b)]
      else input_queue in
    Ok input_queue).

(** [Bego::queue_char]; [character] is a [wchar_t], [buffer] the two units
    of the caller's array. *)
Definition queue_char (b : Bego) (input_queue : list INPUT)
    (character : Z) (buffer : Z * Z) : list INPUT :=
  let utf16_high := Int.u16 character in
  let utf16_low := 0 in
  let '(utf16_high, utf16_low) :=
    if 0x10000 <=? character then (fst buffer, snd buffer)
    else (utf16_high, utf16_low) in
  let input_queue :=
    input_queue ++
    [create_keybd_event KEYEVENTF_UNICODE 0 utf16_high (dw_extra_info b);
     create_keybd_event (Z.lor KEYEVENTF_UNICODE KEYEVENTF_KEYUP) 0
       utf16_high (dw_extra_info b)] in
  if negb (utf16_low =? 0)
  then input_queue ++
       [create_keybd_event KEYEVENTF_UNICODE 0 utf16_low (dw_extra_info b);
        create_keybd_event (Z.lor KEYEVENTF_UNICODE KEYEVENTF_KEYUP) 0
          utf16_low (dw_extra_info b)]
  else input_queue.

(** [Bego::held]: copies of the two vectors. *)
Definition held (b : Bego) : list Key.t * list Z :=
  (Vec.elems (held_keys b), Vec.elems (held_scancodes b)).

(** [Bego::get_marker_value]. *)
Definition get_marker_value (b : Bego) : Z := dw_extra_info b.

(** ** bego_keyboard.cpp *)

(** The value of a [char] of the text: a signed 8-bit integer. *)
Definition char_value (c : ascii) : Z :=
  let n := Z.of_N (N_of_ascii c) in
  if n <? 128 then n else n - 256.

(** The loop of [Bego::text] over the characters, building [input]. *)
Fixpoint text_loop (b : Bego) (buffer : Z * Z) (text : string)
    (input : list INPUT) : outcome (list INPUT) :=
  match text with
  | EmptyString => Ok input
  | String c rest =>
      (* Convert char to wchar_t *)
      let wc := Int.u16 (char_value c) in
      obind
        (match char_value c with
         | 10 (* '\n' *) => queue_key b input Key.Return Click
         | 13 (* '\r' *) => queue_key b input Key.Return Click
         | 9 (* '\t' *) => queue_key b input Key.Tab Click
         | 0 (* '\0' *) => Throw InvalidInput
         | _ => Ok (queue_char b input wc buffer)
         end)
        (fun input => text_loop b buffer rest input)
  end.

(** [Bego::text]. *)
Definition text (text : string) : M unit :=
  match text with
  | EmptyString => ret tt (* Nothing to simulate *)
  | _ =>
      input <- reading (fun b => text_loop b (uninitialized os) text []) ;;
      send_input input
  end.

(** [Bego::key]. *)
Definition key (key : Key.t) (direction : Direction) : M unit :=
  input <- reading (fun b => queue_key b [] key direction) ;;
  send_input input ;;
  match direction with
  | Press =>
      update (fun b => set_held_keys b (Vec.push_back (held_keys b) key))
  | Release =>
      update (fun b =>
        set_held_keys b (Vec.erase_remove Key.eqb (held_keys b) key))
  | Click => ret tt
  end.

(** [Bego::raw]; the argument is converted to [uint16_t] at the call. *)
Definition raw (scan : Z) (direction : Direction) : M unit :=
  let scan := Int.u16 scan in
  input <- reading (fun b =>
    let input := [] in
    let vk := translate_key scan MAPVK_VSC_TO_VK_EX in
    let keyflags := KEYEVENTF_SCANCODE in
    let keyflags :=
      if is_extended_key vk then Z.lor keyflags KEYEVENTF_EXTENDEDKEY
      else keyflags in
    let input :=
      if key_down direction
      then input ++ [create_keybd_event keyflags vk scan (dw_extra_info b)]
      else input in
    let input :=
      if key_up direction
      then input ++
           [create_keybd_event (Z.lor keyflags KEYEVENTF_KEYUP) vk scan
              (dw_extra_info b)]
      else input in
    Ok input) ;;
  send_input input ;;
  match direction with
  | Press =>
      update (fun b =>
        set_held_scancodes b (Vec.push_back (held_scancodes b) scan))
  | Release =>
      update (fun b =>
        set_held_scancodes b
          (Vec.erase_remove Z.eqb (held_scancodes b) scan))
  | Click => ret tt
  end.

(** ** bego_mouse.cpp *)

(** [Bego::scroll]. *)
Definition scroll (length : Z) (axis : Axis) : M unit :=
  let '(flags, data) :=
    match axis with
    | Horizontal => (MOUSEEVENTF_HWHEEL, Int.mul length WHEEL_DELTA)
    | Vertical =>
        (* Invert for vertical *)
        (MOUSEEVENTF_WHEEL, Int.mul (Int.neg length) WHEEL_DELTA)
    end in
  input <- reading (fun b =>
    Ok (create_mouse_event flags data 0 0 (dw_extra_info b))) ;;
  send_input [input].

(** How a block of [Bego::button] ends: control falls through to the next
    statement with the queue, or the function has returned. *)
Inductive control := Next (input : list INPUT) | Returned.

(** [Bego::button].  The [default] labels of the two [switch] statements
    are not reachable with a value of the enumeration. *)
Definition button (button : Button) (direction : Direction) : M unit :=
  let input := [] in
  let button_no :=
    match button with Back => 1 | Forward => 2 | _ => 0 end in
  let event flag :=
    reading (fun b =>
      Ok (Next (input ++
                [create_mouse_event flag button_no 0 0 (dw_extra_info b)]))) in
  (* Handle button press *)
  c <- (if key_down direction then
          match button with
          | Left => event MOUSEEVENTF_LEFTDOWN
          | Middle => event MOUSEEVENTF_MIDDLEDOWN
          | Right => event MOUSEEVENTF_RIGHTDOWN
          | Back | Forward => event MOUSEEVENTF_XDOWN
          | ScrollUp => scroll (-1) Vertical ;; ret Returned
          | ScrollDown => scroll 1 Vertical ;; ret Returned
          | ScrollLeft => scroll (-1) Horizontal ;; ret Returned
          | ScrollRight => scroll 1 Horizontal ;; ret Returned
          end
        else ret (Next input)) ;;
  match c with
  | Returned => ret tt
  | Next input =>
      let event flag :=
        reading (fun b =>
          Ok (Next (input ++
                    [create_mouse_event flag button_no 0 0
                       (dw_extra_info b)]))) in
      (* Handle button release *)
      c <- (if key_up direction then
              match button with
              | Left => event MOUSEEVENTF_LEFTUP
              | Middle => event MOUSEEVENTF_MIDDLEUP
              | Right => event MOUSEEVENTF_RIGHTUP
              | Back | Forward => event MOUSEEVENTF_XUP
              | ScrollUp | ScrollDown | ScrollLeft | ScrollRight =>
                  (* Scroll buttons have no effect on release *)
                  ret Returned
              end
            else ret (Next input)) ;;
      match c with
      | Returned => ret tt
      | Next input => send_input input
      end
  end.

(** [Bego::main_display]. *)
Definition main_display : M (Z * Z) :=
  let width := SM_CXSCREEN os in
  let height := SM_CYSCREEN os in
  if (width =? 0) || (height =? 0) then throw Simulate
  else ret (width, height).

(** [Bego::location]. *)
Definition location : M (Z * Z) :=
  match GetCursorPos os with
  | None => throw Simulate
  | Some (x, y) => ret (x, y)
  end.

(** One coordinate of the scaling to the range 0-65535, [w] being the
    dimension less one: [(x * 65535 + w / 2 * (x >= 0 ? 1 : -1)) / w]. *)
Definition scale (x w : Z) : option Z :=
  match Int.div w 2 with
  | None => None
  | Some half =>
      Int.div
        (Int.add (Int.mul x 65535) (Int.mul half (if 0 <=? x then 1 else -1)))
        w
  end.

(** The absolute branch of [Bego::move_mouse] with the statements that
    follow the branches. *)
Definition move_mouse_abs (x y : Z) : M unit :=
  '(screen_width, screen_height) <- main_display ;;
  (* Subtract 1 from dimensions as per Microsoft documentation *)
  let w := Int.sub screen_width 1 in
  let h := Int.sub screen_height 1 in
  match scale x w, scale y h with
  | Some dx, Some dy =>
      let flags := Z.lor MOUSEEVENTF_MOVE MOUSEEVENTF_ABSOLUTE in
      input <- reading (fun b =>
        Ok (create_mouse_event flags 0 dx dy (dw_extra_info b))) ;;
      send_input [input]
  | _, _ => trap
  end.

(** [Bego::move_mouse].  The function calls itself in its last branch
    only, and with the literal [Coordinate::Abs], so that the call enters
    the first branch: it is unfolded here. *)
Definition move_mouse (x y : Z) (coordinate : Coordinate) : M unit :=
  match coordinate with
  | Abs => move_mouse_abs x y
  | Rel =>
      accel <- reading (fun b =>
        Ok (windows_subject_to_mouse_speed_and_acceleration_level b)) ;;
      if accel : bool then
        (* For relative movement with acceleration *)
        let dx := x in
        let dy := y in
        let flags := MOUSEEVENTF_MOVE in
        input <- reading (fun b =>
          Ok (create_mouse_event flags 0 dx dy (dw_extra_info b))) ;;
        send_input [input]
      else
        '(current_x, current_y) <- location ;;
        move_mouse_abs (Int.add current_x x) (Int.add current_y y)
  end.

(** ** The destructor *)

(** How the destructor ends: it returns; or it goes on with iterators of a
    vector from which a release has erased elements, which leaves the
    behaviour of the program undefined from there; or a call in it stopped
    the process. *)
Inductive teardown := Dropped | Invalidated | Stopped.

(** The first range-based [for] loop of [Bego::~Bego].  The iterators of
    the range are taken once, before the first iteration, [positions]
    being the positions of the vector at that moment.  A release that
    throws is caught and the loop goes on to the next position.  A release
    that returns and has erased from [held_keys] invalidates the iterator
    of the loop: the state is then the one at the end of that call. *)
Fixpoint release_keys (positions : list nat) (st : State)
    : teardown * State :=
  match positions with
  | [] => (Dropped, st)
  | i :: rest =>
      match nth_error (Vec.elems (held_keys (self st))) i with
      | None => (Invalidated, st)
      | Some k =>
          match key k Release st with
          | (Throw _, st') => release_keys rest st'
          | (Ok _, st') =>
              if Nat.eqb (Vec.size (held_keys (self st')))
                         (Vec.size (held_keys (self st)))
              then release_keys rest st'
              else (Invalidated, st')
          | (Trap, st') => (Stopped, st')
          end
      end
  end.

(** The second loop, over [held_scancodes] with [raw]. *)
Fixpoint release_scancodes (positions : list nat) (st : State)
    : teardown * State :=
  match positions with
  | [] => (Dropped, st)
  | i :: rest =>
      match nth_error (Vec.elems (held_scancodes (self st))) i with
      | None => (Invalidated, st)
      | Some s =>
          match raw s Release st with
          | (Throw _, st') => release_scancodes rest st'
          | (Ok _, st') =>
              if Nat.eqb (Vec.size (held_scancodes (self st')))
                         (Vec.size (held_scancodes (self st)))
              then release_scancodes rest st'
              else (Invalidated, st')
          | (Trap, st') => (Stopped, st')
          end
      end
  end.

(** [Bego::~Bego]. *)
Definition Bego_drop (st : State) : teardown * State :=
  if negb (release_keys_when_dropped (self st)) then (Dropped, st)
  else
    match release_keys (seq 0 (Vec.size (held_keys (self st)))) st with
    | (Dropped, st') =>
        release_scancodes (seq 0 (Vec.size (held_scancodes (self st')))) st'
    | ended => ended
    end.

End Library.

(** ** Callers *)

(** A call of one of the public operations. *)
Inductive call :=
  | call_text (s : string)
  | call_key (k : Key.t) (d : Direction)
  | call_raw (scan : Z) (d : Direction)
  | call_button (b : Button) (d : Direction)
  | call_scroll (length : Z) (a : Axis)
  | call_move_mouse (x y : Z) (c : Coordinate).

Definition perform (os : OS) (c : call) : M unit :=
  match c with
  | call_text s => text os s
  | call_key k d => key os k d
  | call_raw scan d => raw os scan d
  | call_button b d => button os b d
  | call_scroll length a => scroll os length a
  | call_move_mouse x y c => move_mouse os x y c
  end.

(** A caller that performs the calls in turn and goes on after a call that
    threw; a trap ends the run. *)
Fixpoint perform_all (os : OS) (cs : list call) (st : State) : State :=
  match cs with
  | [] => st
  | c :: rest =>
      match perform os c st with
      | (Trap, st') => st'
      | (_, st') => perform_all os rest st'
      end
  end.

(** A fresh instance, nothing sent yet. *)
Definition fresh (settings : Settings.t) : State :=
  mkState (Bego_new settings) [].

(** The call is not a [Press] of a key or scan code that the object
    already holds. *)
Definition press_is_new (c : call) (b : Bego) : bool :=
  match c with
  | call_key k Press => negb (existsb (Key.eqb k) (fst (held b)))
  | call_raw scan Press =>
      negb (existsb (Z.eqb (Int.u16 scan)) (snd (held b)))
  | _ => true
  end.

(** No call of the run presses what is held at the time of the call. *)
Fixpoint presses_are_new (os : OS) (cs : list call) (st : State) : bool :=
  match cs with
  | [] => true
  | c :: rest =>
      press_is_new c (self st) &&
      match perform os c st with
      | (Trap, _) => true
      | (_, st') => presses_are_new os rest st'
      end
  end.

(** ** The scaling formula in the words of the design document *)

Definition sign (v : Z) : Z := if 0 <=? v then 1 else -1.

(** [(v * 65535 + half_dim * sign(v)) / (dim - 1)] with [half_dim] the
    half of [dim], rounded down. *)
Definition documented_scale (v dim : Z) : Z :=
  Z.quot (v * 65535 + dim / 2 * sign v) (dim - 1).

(** The same with the half of [dim - 1], rounded down. *)
Definition nearest_scale (v dim : Z) : Z :=
  Z.quot (v * 65535 + (dim - 1) / 2 * sign v) (dim - 1).

(** The one descriptor of an absolute move. *)
Definition move_descriptor (b : Bego) (nx ny : Z) : INPUT :=
  create_mouse_event (Z.lor MOUSEEVENTF_MOVE MOUSEEVENTF_ABSOLUTE) 0 nx ny
    (dw_extra_info b).

(** ** The shape of the descriptors of a text *)

(** A key-down descriptor and the key-up descriptor of the same unit. *)
Inductive down_up : INPUT -> INPUT -> Prop :=
  | down_up_intro flags vk scan extra :
      Z.land flags KEYEVENTF_KEYUP = 0 ->
      down_up (INPUT_KEYBOARD flags vk scan extra)
              (INPUT_KEYBOARD (Z.lor flags KEYEVENTF_KEYUP) vk scan extra).

(** What one character contributes: a pair for one code unit, or a pair
    for the high surrogate followed by a pair for the low surrogate. *)
Inductive character_shape : list INPUT -> Prop :=
  | one_code_unit d u : down_up d u -> character_shape [d; u]
  | surrogate_pair d1 u1 d2 u2 :
      down_up d1 u1 -> down_up d2 u2 -> character_shape [d1; u1; d2; u2].

(** The descriptors of one character of a text: a click of [Return] for a
    newline or a carriage return, a click of [Tab] for a tab, the Unicode
    injection of the character otherwise. *)
Definition character_descriptors (os : OS) (b : Bego) (c : ascii)
    : outcome (list INPUT) :=
  if (char_value c =? 10) || (char_value c =? 13)
  then queue_key os b [] Key.Return Click
  else if char_value c =? 9 then queue_key os b [] Key.Tab Click
  else Ok (queue_char b [] (Int.u16 (char_value c)) (uninitialized os)).

(** ** Examples of operating systems *)

(** A desktop with a 1920 x 1080 display, the pointer at (100, 200), a
    layout that maps every code to itself and a sink that accepts every
    batch. *)
Definition desktop : OS :=
  mkOS 1920 1080 (Some (100, 200)) (fun code _ => code) (fun _ _ => true)
    (0, 0).

(** The same with a display 40000 pixels wide. *)
Definition wide_desktop : OS :=
  mkOS 40000 1080 (Some (100, 200)) (fun code _ => code) (fun _ _ => true)
    (0, 0).

(** Neither held collection has two entries for one key or scan code. *)
Definition held_distinct (b : Bego) : Prop :=
  NoDup (fst (held b)) /\ NoDup (snd (held b)).


(** ** Further vocabulary for the properties *)

(** [Bego::fast_text]: there is no fast method, the caller falls back to
    [text]. *)
Definition fast_text (text : string) : option bool := None.

(** The marker of a descriptor. *)
Definition extra_info (i : INPUT) : Z :=
  match i with
  | INPUT_MOUSE _ _ _ _ e => e
  | INPUT_KEYBOARD _ _ _ e => e
  end.

(** Every descriptor of the batch carries the marker [m]. *)
Definition marked (m : Z) (input : list INPUT) : Prop :=
  Forall (fun i => extra_info i = m) input.

(** The keys whose virtual-key code is one of [is_extended_key]. *)
Definition extended_keys : list Key.t :=
  [ Key.RightAlt; Key.RightControl;
    Key.Up; Key.Down; Key.Left; Key.Right;
    Key.Insert; Key.Delete; Key.Home; Key.End_; Key.PageUp; Key.PageDown;
    Key.PrintScreen; Key.NumpadDivide ].

(** The desktop with a sink that rejects every batch. *)
Definition locked_desktop : OS :=
  mkOS 1920 1080 (Some (100, 200)) (fun code _ => code) (fun _ _ => false)
    (0, 0).

(** The code unit that [text] injects for a [char]: the byte itself below
    128, the byte with the high byte set above (the sign extension of the
    conversion of a negative [char] to [wchar_t]). *)
Definition code_unit (c : ascii) : Z :=
  let n := Z.of_N (N_of_ascii c) in
  if n <? 128 then n else 0xFF00 + n.

(** The character is none of those that [text] treats apart: null, tab,
    newline, carriage return. *)
Definition plain_char (c : ascii) : bool :=
  negb (existsb (Z.eqb (char_value c)) [0; 9; 10; 13]).

(** The two descriptors of the Unicode injection of one code unit. *)
Definition unicode_click (b : Bego) (unit : Z) : list INPUT :=
  [INPUT_KEYBOARD KEYEVENTF_UNICODE 0 unit (dw_extra_info b);
   INPUT_KEYBOARD (Z.lor KEYEVENTF_UNICODE KEYEVENTF_KEYUP) 0 unit
     (dw_extra_info b)].

(** The sink rejects every batch. *)
Definition rejecting (os : OS) : Prop :=
  forall history input, SendInput_accepts os history input = false.

(** The releases of everything an object holds: its keys in their order,
    then its scan codes in theirs. *)
Definition releases (b : Bego) : list call :=
  map (fun k => call_key k Release) (fst (held b)) ++
  map (fun s => call_raw s Release) (snd (held b)).

(** Desktops without a display, with a display one pixel wide, and with
    a pointer that cannot be queried. *)
Definition headless : OS :=
  mkOS 0 0 (Some (0, 0)) (fun code _ => code) (fun _ _ => true) (0, 0).

Definition one_pixel_wide : OS :=
  mkOS 1 1080 (Some (0, 0)) (fun code _ => code) (fun _ _ => true) (0, 0).

Definition no_pointer : OS :=
  mkOS 1920 1080 None (fun code _ => code) (fun _ _ => true) (0, 0).

(** The button is one of the four scroll pseudo-buttons. *)
Definition is_scroll_button (b : Button) : bool :=
  match b with
  | ScrollUp | ScrollDown | ScrollLeft | ScrollRight => true
  | _ => false
  end.

(** * Properties *)

(** ** Machine integers *)

Module IntFacts.
Import Int.

Lemma wrap_small z : in_range z -> wrap z = z.
Proof.
  unfold in_range, wrap, min_signed, max_signed, half_modulus, modulus.
  intros H. rewrite Z.mod_small; lia.
Qed.

Lemma wrap_range z : in_range (wrap z).
Proof.
  unfold in_range, wrap, min_signed, max_signed, half_modulus, modulus.
  pose proof (Z.mod_pos_bound (z + 2 ^ 31) (2 ^ 32) ltac:(lia)). lia.
Qed.

End IntFacts.

(** ** The enumeration of keys *)

Module KeyFacts.
Import Key.

Lemma nth_to_nat k : nth_error all (to_nat k) = Some k.
Proof. destruct k; reflexivity. Qed.

Lemma to_nat_inj a b : to_nat a = to_nat b -> a = b.
Proof.
  intros H. pose proof (nth_to_nat a) as Ha. rewrite H, nth_to_nat in Ha.
  now injection Ha.
Qed.

Lemma eqb_eq a b : eqb a b = true <-> a = b.
Proof.
  unfold eqb. rewrite Nat.eqb_eq. split; [apply to_nat_inj | now intros ->].
Qed.

Lemma eqb_refl a : eqb a a = true.
Proof. now apply eqb_eq. Qed.

Lemma eqb_neq a b : eqb a b = false <-> a <> b.
Proof.
  rewrite <- eqb_eq. destruct (eqb a b); split; congruence.
Qed.

End KeyFacts.

(** ** Vectors *)

Module VecFacts.
Import Vec.

Lemma elems_push_back {A} (v : t A) x : elems (push_back v x) = elems v ++ [x].
Proof. reflexivity. Qed.

(** After [erase_remove] no element equal to [x] is left. *)
Lemma elems_erase_remove {A} (eqb : A -> A -> bool) (v : t A) x y :
  In y (elems (erase_remove eqb v x)) <-> In y (elems v) /\ eqb y x = false.
Proof.
  unfold erase_remove. cbn [elems]. rewrite filter_In.
  now rewrite negb_true_iff.
Qed.

End VecFacts.

(** ** The key tables *)

Example key_to_vk_unicode : key_to_vk Key.Unicode = Ok 0.
Proof. reflexivity. Qed.

Example vk_to_key_zero : vk_to_key 0 = Throw Mapping.
Proof. reflexivity. Qed.

Lemma has_native_mapping_spec k :
  has_native_mapping k = true <-> k <> Key.Unicode.
Proof.
  split.
  - intros H ->. discriminate H.
  - destruct k; intros H; try reflexivity. now elim H.
Qed.

(** C4.  Round trip of the key tables: every [Key] with a native mapping,
    that is every enumerator except the [Unicode] sentinel (whose native
    code is 0 by convention), is sent by [key_to_vk] to a virtual-key code
    that [vk_to_key] sends back to it. *)
Theorem vk_to_key_key_to_vk (k : Key.t) :
  has_native_mapping k = true ->
  exists vk, key_to_vk k = Ok vk /\ vk_to_key vk = Ok k.
Proof.
  intros Hk. apply has_native_mapping_spec in Hk.
  destruct k; try (eexists; split; reflexivity).
  now elim Hk.
Qed.

Lemma vk_to_key_key_to_vk_witness :
  has_native_mapping Key.PageUp = true /\
  exists vk, key_to_vk Key.PageUp = Ok vk /\ vk_to_key vk = Ok Key.PageUp.
Proof.
  split; [ reflexivity | apply (vk_to_key_key_to_vk Key.PageUp); reflexivity ].
Defined.

(** ** Effects of the calls on the object *)

Section Effects.

Variable os : OS.

Lemma key_to_vk_total k : exists vk, key_to_vk k = Ok vk.
Proof. destruct k; eexists; reflexivity. Qed.

Lemma queue_key_total b q k d : exists q', queue_key os b q k d = Ok q'.
Proof.
  unfold queue_key. destruct (key_to_vk_total k) as [vk ->]. simpl.
  eexists; reflexivity.
Qed.

(** What a call of [key] leaves behind. *)
Lemma key_effect k d st :
  exists input,
    queue_key os (self st) [] k d = Ok input /\
    key os k d st =
      if SendInput_accepts os (sent st) input
      then (Ok tt,
            mkState
              match d with
              | Press =>
                  set_held_keys (self st)
                    (Vec.push_back (held_keys (self st)) k)
              | Release =>
                  set_held_keys (self st)
                    (Vec.erase_remove Key.eqb (held_keys (self st)) k)
              | Click => self st
              end (sent st ++ [input]))
      else (Throw Simulate, mkState (self st) (sent st ++ [input])).
Proof.
  destruct (queue_key_total (self st) [] k d) as [input Hq].
  exists input. split; [exact Hq|].
  unfold key, bind, reading, send_input. rewrite Hq.
  destruct (SendInput_accepts os (sent st) input); [|reflexivity].
  destruct d; reflexivity.
Qed.

(** What a call of [raw] leaves behind. *)
Lemma raw_effect scan d st :
  exists input,
    raw os scan d st =
      if SendInput_accepts os (sent st) input
      then (Ok tt,
            mkState
              match d with
              | Press =>
                  set_held_scancodes (self st)
                    (Vec.push_back (held_scancodes (self st)) (Int.u16 scan))
              | Release =>
                  set_held_scancodes (self st)
                    (Vec.erase_remove Z.eqb (held_scancodes (self st))
                       (Int.u16 scan))
              | Click => self st
              end (sent st ++ [input]))
      else (Throw Simulate, mkState (self st) (sent st ++ [input])).
Proof.
  unfold raw, bind, reading, send_input. cbv zeta.
  match goal with
  | |- context [SendInput_accepts os (sent st) ?i] =>
      exists i; destruct (SendInput_accepts os (sent st) i)
  end; [|reflexivity].
  destruct d; reflexivity.
Qed.

Lemma send_input_self input st :
  self (snd (send_input os input st)) = self st.
Proof.
  unfold send_input. now destruct (SendInput_accepts os (sent st) input).
Qed.

Lemma scroll_self length a st :
  self (snd (scroll os length a st)) = self st.
Proof.
  unfold scroll. destruct a; cbv [bind reading]; apply send_input_self.
Qed.

Lemma text_self s st : self (snd (text os s st)) = self st.
Proof.
  destruct s as [|c s]; [reflexivity|].
  unfold text, bind, reading.
  destruct (text_loop os (self st) (uninitialized os) (String c s) []);
    try reflexivity.
  apply send_input_self.
Qed.

Lemma button_self b d st : self (snd (button os b d st)) = self st.
Proof.
  unfold button.
  destruct b, d; cbv [key_down key_up bind reading ret];
    try apply send_input_self; try reflexivity;
    match goal with
    | |- context [scroll os ?l ?a st] =>
        pose proof (scroll_self l a st) as H;
        destruct (scroll os l a st) as [[ | | ] ?]; exact H
    end.
Qed.

Lemma move_mouse_abs_self x y st :
  self (snd (move_mouse_abs os x y st)) = self st.
Proof.
  unfold move_mouse_abs, main_display, bind, throw, ret, trap, reading.
  destruct ((SM_CXSCREEN os =? 0) || (SM_CYSCREEN os =? 0)); [reflexivity|].
  destruct (scale x _); [|reflexivity].
  destruct (scale y _); [|reflexivity].
  apply send_input_self.
Qed.

Lemma move_mouse_self x y c st :
  self (snd (move_mouse os x y c st)) = self st.
Proof.
  destruct c; [apply move_mouse_abs_self|].
  unfold move_mouse, bind, reading, location, throw, ret.
  destruct (windows_subject_to_mouse_speed_and_acceleration_level (self st)).
  - apply send_input_self.
  - destruct (GetCursorPos os) as [[cx cy]|]; [|reflexivity].
    apply move_mouse_abs_self.
Qed.

(** ** The held keys *)

Lemma existsb_eqb_false {A} (eqb : A -> A -> bool) x l :
  (forall a b, eqb a b = true <-> a = b) ->
  existsb (eqb x) l = false -> ~ In x l.
Proof.
  intros Heqb Hex Hin.
  assert (existsb (eqb x) l = true) as Ht.
  { apply existsb_exists. exists x. split; [exact Hin | now apply Heqb]. }
  congruence.
Qed.

Lemma NoDup_snoc {A} (l : list A) x : NoDup l -> ~ In x l -> NoDup (l ++ [x]).
Proof.
  intros Hl Hx. apply NoDup_app; [exact Hl | repeat constructor; intros [] |].
  intros a Ha [<- | []]. contradiction.
Qed.

Lemma perform_held_distinct c st :
  held_distinct (self st) ->
  press_is_new c (self st) = true ->
  held_distinct (self (snd (perform os c st))).
Proof.
  intros [Hk Hs] Hnew.
  destruct c as [s | k d | scan d | b d | len a | x y c]; simpl perform.
  - now rewrite text_self.
  - destruct (key_effect k d st) as (input & _ & ->).
    destruct (SendInput_accepts os (sent st) input); [|now split].
    destruct d; split; simpl; try assumption.
    + apply NoDup_snoc; [exact Hk|].
      apply (existsb_eqb_false Key.eqb); [apply KeyFacts.eqb_eq|].
      simpl in Hnew. now apply negb_true_iff in Hnew.
    + now apply NoDup_filter.
  - destruct (raw_effect scan d st) as (input & ->).
    destruct (SendInput_accepts os (sent st) input); [|now split].
    destruct d; split; simpl; try assumption.
    + apply NoDup_snoc; [exact Hs|].
      apply (existsb_eqb_false Z.eqb); [apply Z.eqb_eq|].
      simpl in Hnew. now apply negb_true_iff in Hnew.
    + now apply NoDup_filter.
  - now rewrite button_self.
  - now rewrite scroll_self.
  - now rewrite move_mouse_self.
Qed.

Lemma perform_all_held_distinct cs : forall st,
  held_distinct (self st) ->
  presses_are_new os cs st = true ->
  held_distinct (self (perform_all os cs st)).
Proof.
  induction cs as [|c cs IH]; intros st Hst Hnew; [exact Hst|].
  simpl in Hnew. apply andb_true_iff in Hnew as [Hc Hrest].
  pose proof (perform_held_distinct c st Hst Hc) as Hstep.
  simpl. destruct (perform os c st) as [[[] | e | ] st']; simpl in Hstep;
    auto.
Qed.

End Effects.

(** C1 (as amended).  A call [key(k, d)] or [raw(s, d)] that returns
    appends the identifier to the end of its held collection on a [Press]
    (also when it is held already, which adds a second entry), removes
    every entry of the identifier on a [Release] and changes nothing on a
    [Click]; a call that throws changes nothing.  Hence after every run of
    calls on a fresh instance in which no [Press] names a key or scan code
    held at that moment, neither collection returned by [held] has two
    entries for the same key or scan code. *)
Theorem held_duplicate_free (os : OS) :
  (forall k d st,
     held (self (snd (key os k d st))) =
     match fst (key os k d st), d with
     | Ok _, Press =>
         (fst (held (self st)) ++ [k], snd (held (self st)))
     | Ok _, Release =>
         (filter (fun y => negb (Key.eqb y k)) (fst (held (self st))),
          snd (held (self st)))
     | _, _ => held (self st)
     end) /\
  (forall scan d st,
     held (self (snd (raw os scan d st))) =
     match fst (raw os scan d st), d with
     | Ok _, Press =>
         (fst (held (self st)), snd (held (self st)) ++ [Int.u16 scan])
     | Ok _, Release =>
         (fst (held (self st)),
          filter (fun y => negb (Z.eqb y (Int.u16 scan)))
            (snd (held (self st))))
     | _, _ => held (self st)
     end) /\
  (forall settings cs,
     presses_are_new os cs (fresh settings) = true ->
     NoDup (fst (held (self (perform_all os cs (fresh settings))))) /\
     NoDup (snd (held (self (perform_all os cs (fresh settings)))))).
Proof.
  split; [|split].
  - intros k d st. destruct (key_effect os k d st) as (input & _ & ->).
    destruct (SendInput_accepts os (sent st) input); [|reflexivity].
    destruct d; reflexivity.
  - intros scan d st. destruct (raw_effect os scan d st) as (input & ->).
    destruct (SendInput_accepts os (sent st) input); [|reflexivity].
    destruct d; reflexivity.
  - intros settings cs Hnew. apply perform_all_held_distinct; [|exact Hnew].
    split; constructor.
Qed.

Lemma held_duplicate_free_witness :
  presses_are_new desktop
    [call_key Key.A Press; call_raw 30 Press; call_key Key.A Release;
     call_key Key.A Press]
    (fresh Settings.default) = true /\
  NoDup (fst (held (self (perform_all desktop
    [call_key Key.A Press; call_raw 30 Press; call_key Key.A Release;
     call_key Key.A Press]
    (fresh Settings.default))))) /\
  NoDup (snd (held (self (perform_all desktop
    [call_key Key.A Press; call_raw 30 Press; call_key Key.A Release;
     call_key Key.A Press]
    (fresh Settings.default))))).
Proof.
  split; [reflexivity|].
  exact (proj2 (proj2 (held_duplicate_free desktop)) Settings.default
           [call_key Key.A Press; call_raw 30 Press; call_key Key.A Release;
            call_key Key.A Press] eq_refl).
Defined.

(** C1 (as stated) fails: a second [Press] of a held key adds a second
    entry. *)
Lemma held_keys_duplicate :
  fst (held (self (perform_all desktop
    [call_key Key.A Press; call_key Key.A Press] (fresh Settings.default))))
  = [Key.A; Key.A] /\
  ~ NoDup (fst (held (self (perform_all desktop
    [call_key Key.A Press; call_key Key.A Press]
    (fresh Settings.default))))).
Proof.
  split; [reflexivity|].
  intros H. vm_compute in H. inversion H as [|? ? Hin _]; subst.
  apply Hin. now left.
Qed.

(** ** Scaling of absolute coordinates *)

Lemma in_range_iff z :
  Int.in_range z <-> -2147483648 <= z <= 2147483647.
Proof. reflexivity. Qed.

Lemma quot_between a w :
  1 <= w -> Z.min 0 a <= Z.quot a w <= Z.max 0 a.
Proof.
  intros Hw.
  assert (forall b, 0 <= b -> 0 <= Z.quot b w <= b) as Hpos.
  { intros b Hb. rewrite Z.quot_div_nonneg by lia. split.
    - apply Z.div_pos; lia.
    - apply Z.div_le_upper_bound; nia. }
  destruct (Z.le_gt_cases 0 a) as [Ha | Ha].
  - specialize (Hpos a Ha). lia.
  - specialize (Hpos (- a) ltac:(lia)).
    rewrite Z.quot_opp_l in Hpos by lia. lia.
Qed.

Lemma sign_cases v : sign v = 1 /\ 0 <= v \/ sign v = -1 /\ v < 0.
Proof. unfold sign. destruct (Z.leb_spec 0 v); [left | right]; lia. Qed.

(** Where nothing overflows, the code computes the quotient of the
    integers. *)
Lemma scale_exact x dim :
  2 <= dim <= Int.max_signed ->
  Int.in_range (x * 65535 + (dim - 1) / 2 * sign x) ->
  scale x (Int.sub dim 1) = Some (nearest_scale x dim).
Proof.
  intros Hdim Hsum.
  assert (Hmax : Int.max_signed = 2147483647) by reflexivity.
  rewrite Hmax in Hdim.
  pose proof (proj1 (in_range_iff _) Hsum) as Hsum'.
  unfold Int.sub. rewrite (IntFacts.wrap_small (dim - 1))
    by (apply in_range_iff; lia).
  unfold nearest_scale, scale, Int.div.
  change (2 =? 0) with false. cbv iota.
  rewrite (Z.quot_div_nonneg (dim - 1) 2) by lia.
  fold (sign x).
  set (half := (dim - 1) / 2) in *.
  assert (0 <= half <= dim - 1) as Hhalf.
  { subst half. split; [apply Z.div_pos; lia|].
    apply Z.div_le_upper_bound; lia. }
  rewrite (IntFacts.wrap_small half) by (apply in_range_iff; lia).
  destruct (Z.eqb_spec (dim - 1) 0) as [H0 | _]; [lia|].
  unfold Int.add, Int.mul.
  assert (-2147483648 <= x * 65535 <= 2147483647 /\
          -2147483648 <= half * sign x <= 2147483647) as [Hx Hh].
  { destruct (sign_cases x) as [[Hs Hv] | [Hs Hv]]; rewrite Hs in *; lia. }
  rewrite (IntFacts.wrap_small (x * 65535)) by (apply in_range_iff; lia).
  rewrite (IntFacts.wrap_small (half * sign x)) by (apply in_range_iff; lia).
  rewrite (IntFacts.wrap_small (x * 65535 + half * sign x))
    by (apply in_range_iff; lia).
  rewrite IntFacts.wrap_small; [reflexivity|].
  apply in_range_iff.
  pose proof (quot_between (x * 65535 + half * sign x) (dim - 1) ltac:(lia))
    as Hq.
  revert Hq Hsum'.
  generalize (Z.quot (x * 65535 + half * sign x) (dim - 1)).
  generalize (x * 65535 + half * sign x). lia.
Qed.

(** On a display of at most 32769 pixels a coordinate on the display is
    scaled into the range 0-65535. *)
Lemma scale_on_display x dim :
  2 <= dim <= 32769 -> 0 <= x <= dim - 1 ->
  exists n, scale x (Int.sub dim 1) = Some n /\ 0 <= n <= 65535.
Proof.
  intros Hdim Hx.
  assert (0 <= (dim - 1) / 2 < dim - 1) as Hhalf.
  { split; [apply Z.div_pos; lia | apply Z.div_lt; lia]. }
  assert (sign x = 1) as Hs by (unfold sign; destruct (Z.leb_spec 0 x); lia).
  exists (nearest_scale x dim). split.
  - apply scale_exact; [change Int.max_signed with 2147483647; lia|].
    apply in_range_iff. rewrite Hs. lia.
  - unfold nearest_scale. rewrite Hs.
    rewrite Z.quot_div_nonneg by lia. split.
    + apply Z.div_pos; lia.
    + apply Z.lt_succ_r. apply Z.div_lt_upper_bound; lia.
Qed.

Section Mouse.

Variable os : OS.

(** C2 (as amended).  On a display of at least 2 by 2 pixels, and where
    the products and sums of the formula fit the 32-bit integers of the
    code, an absolute move sends the one descriptor whose coordinates are
    [(v * 65535 + half * sign(v)) / (dim - 1)], the division truncating,
    [half] being the half of [dim - 1] rounded down and [sign(v)] being 1
    for [v >= 0] and -1 otherwise. *)
Theorem move_mouse_abs_scaling (x y : Z) (st : State) :
  2 <= SM_CXSCREEN os <= Int.max_signed ->
  2 <= SM_CYSCREEN os <= Int.max_signed ->
  Int.in_range (x * 65535 + (SM_CXSCREEN os - 1) / 2 * sign x) ->
  Int.in_range (y * 65535 + (SM_CYSCREEN os - 1) / 2 * sign y) ->
  move_mouse os x y Abs st =
  send_input os
    [move_descriptor (self st)
       (nearest_scale x (SM_CXSCREEN os))
       (nearest_scale y (SM_CYSCREEN os))] st.
Proof.
  intros Hw Hh Hx Hy.
  unfold move_mouse, move_mouse_abs, main_display, bind.
  destruct (Z.eqb_spec (SM_CXSCREEN os) 0) as [H0 | _]; [lia|].
  destruct (Z.eqb_spec (SM_CYSCREEN os) 0) as [H0 | _]; [lia|].
  cbv [orb ret].
  rewrite (scale_exact x _ Hw Hx), (scale_exact y _ Hh Hy).
  reflexivity.
Qed.

End Mouse.

Lemma move_mouse_abs_scaling_witness :
  2 <= SM_CXSCREEN desktop <= Int.max_signed /\
  2 <= SM_CYSCREEN desktop <= Int.max_signed /\
  Int.in_range (83 * 65535 + (SM_CXSCREEN desktop - 1) / 2 * sign 83) /\
  Int.in_range (-5 * 65535 + (SM_CYSCREEN desktop - 1) / 2 * sign (-5)) /\
  move_mouse desktop 83 (-5) Abs (fresh Settings.default) =
  send_input desktop
    [move_descriptor (self (fresh Settings.default))
       (nearest_scale 83 (SM_CXSCREEN desktop))
       (nearest_scale (-5) (SM_CYSCREEN desktop))]
    (fresh Settings.default).
Proof.
  assert (2 <= SM_CXSCREEN desktop <= Int.max_signed) as Hw
    by (vm_compute; split; discriminate).
  assert (2 <= SM_CYSCREEN desktop <= Int.max_signed) as Hh
    by (vm_compute; split; discriminate).
  assert (Int.in_range
            (83 * 65535 + (SM_CXSCREEN desktop - 1) / 2 * sign 83)) as Hx
    by (vm_compute; split; discriminate).
  assert (Int.in_range
            (-5 * 65535 + (SM_CYSCREEN desktop - 1) / 2 * sign (-5))) as Hy
    by (vm_compute; split; discriminate).
  split; [exact Hw|]. split; [exact Hh|].
  split; [exact Hx|]. split; [exact Hy|].
  exact (move_mouse_abs_scaling desktop 83 (-5) (fresh Settings.default)
           Hw Hh Hx Hy).
Defined.

(** C2 (as stated) fails: with the half of the dimension itself the
    formula gives 2835 for the column 83 of a display 1920 pixels wide,
    and the code sends 2834. *)
Lemma documented_scale_differs :
  ~ (forall (os : OS) (x y : Z) (st : State),
       2 <= SM_CXSCREEN os -> 2 <= SM_CYSCREEN os ->
       move_mouse os x y Abs st =
       send_input os
         [move_descriptor (self st)
            (documented_scale x (SM_CXSCREEN os))
            (documented_scale y (SM_CYSCREEN os))] st).
Proof.
  intros H.
  specialize (H desktop 83 0 (fresh Settings.default)
                ltac:(vm_compute; discriminate)
                ltac:(vm_compute; discriminate)).
  vm_compute in H. discriminate H.
Qed.

Example documented_scale_83 :
  documented_scale 83 1920 = 2835 /\ nearest_scale 83 1920 = 2834.
Proof. split; reflexivity. Qed.

(** C3 fails on a display wider than 32769 pixels: the product
    [x * 65535] leaves the 32-bit integers.  On a display 40000 pixels
    wide the rightmost column, 39999, is sent as -41841. *)
Theorem move_mouse_abs_overflow :
  move_mouse wide_desktop 39999 0 Abs (fresh Settings.default) =
  (Ok tt,
   mkState (Bego_new Settings.default)
     [[INPUT_MOUSE (Z.lor MOUSEEVENTF_MOVE MOUSEEVENTF_ABSOLUTE) 0
         (-41841) 0 EVENT_MARKER]]).
Proof. vm_compute. reflexivity. Qed.

(** On a display of at most 32769 pixels a position on the display is
    sent with both coordinates in the range 0-65535. *)
Lemma move_mouse_abs_on_display os x y st :
  2 <= SM_CXSCREEN os <= 32769 -> 2 <= SM_CYSCREEN os <= 32769 ->
  0 <= x <= SM_CXSCREEN os - 1 -> 0 <= y <= SM_CYSCREEN os - 1 ->
  exists nx ny,
    0 <= nx <= 65535 /\ 0 <= ny <= 65535 /\
    move_mouse os x y Abs st =
    send_input os [move_descriptor (self st) nx ny] st.
Proof.
  intros Hw Hh Hx Hy.
  destruct (scale_on_display x _ Hw Hx) as (nx & Ex & Hnx).
  destruct (scale_on_display y _ Hh Hy) as (ny & Ey & Hny).
  exists nx, ny. split; [exact Hnx|]. split; [exact Hny|].
  unfold move_mouse, move_mouse_abs, main_display, bind.
  destruct (Z.eqb_spec (SM_CXSCREEN os) 0) as [H0 | _]; [lia|].
  destruct (Z.eqb_spec (SM_CYSCREEN os) 0) as [H0 | _]; [lia|].
  cbv [orb ret]. rewrite Ex, Ey. reflexivity.
Qed.

(** ** Text *)

Lemma char_value_zero c : char_value c = 0 <-> c = Ascii.zero.
Proof.
  destruct c as [[] [] [] [] [] [] [] []]; vm_compute;
    split; intros H; try reflexivity; discriminate H.
Qed.

(** The [switch] of [Bego::text] as a chain of comparisons. *)
Lemma switch_char {A} (v : Z) (a10 a13 a9 a0 d : A) :
  match v with
  | 10 => a10
  | 13 => a13
  | 9 => a9
  | 0 => a0
  | _ => d
  end =
  if (v =? 10) || (v =? 13) then (if v =? 10 then a10 else a13)
  else if v =? 9 then a9
  else if v =? 0 then a0
  else d.
Proof.
  destruct v as [|p|p]; try reflexivity.
  do 5 (try (destruct p as [p|p|]; try reflexivity)).
Qed.

Lemma u16_below v : (0x10000 <=? Int.u16 v) = false.
Proof.
  apply Z.leb_gt. unfold Int.u16.
  exact (proj2 (Z.mod_pos_bound v (2 ^ 16) eq_refl)).
Qed.

Section Text.

Variable os : OS.
Variable b : Bego.

Lemma queue_key_app q k d :
  queue_key os b q k d =
  obind (queue_key os b [] k d) (fun l => Ok (q ++ l)).
Proof.
  unfold queue_key. destruct (key_to_vk_total k) as [vk ->]. simpl.
  destruct (key_down d), (key_up d); simpl;
    rewrite ?app_nil_r, <- ?app_assoc; reflexivity.
Qed.

Lemma queue_char_app q character buffer :
  queue_char b q character buffer = q ++ queue_char b [] character buffer.
Proof.
  unfold queue_char.
  destruct (0x10000 <=? character); cbv zeta beta iota;
    match goal with
    | |- context [negb (?z =? 0)] => destruct (negb (z =? 0))
    end; simpl; rewrite <- ?app_assoc; reflexivity.
Qed.

(** The descriptors of a click of a key: down, then up. *)
Lemma queue_key_click_shape k :
  exists l, queue_key os b [] k Click = Ok l /\ character_shape l.
Proof.
  unfold queue_key. destruct (key_to_vk_total k) as [vk ->]. simpl.
  eexists. split; [reflexivity|].
  apply one_code_unit. apply down_up_intro.
  destruct (is_extended_key vk); reflexivity.
Qed.

(** The descriptors of [queue_char]: one pair, or two when the character
    lies beyond the basic plane and the low unit of the buffer is set. *)
Lemma queue_char_shape character buffer :
  character_shape (queue_char b [] character buffer).
Proof.
  unfold queue_char.
  destruct (0x10000 <=? character); cbv zeta beta iota;
    match goal with
    | |- context [negb (?z =? 0)] => destruct (negb (z =? 0))
    end; simpl;
    repeat first [ apply surrogate_pair | apply one_code_unit
                 | apply down_up_intro; reflexivity ].
Qed.

Lemma character_descriptors_shape c :
  exists l, character_descriptors os b c = Ok l /\ character_shape l.
Proof.
  unfold character_descriptors.
  destruct ((char_value c =? 10) || (char_value c =? 13));
    [apply queue_key_click_shape|].
  destruct (char_value c =? 9); [apply queue_key_click_shape|].
  eexists. split; [reflexivity | apply queue_char_shape].
Qed.

(** One turn of the loop of [text]. *)
Lemma text_loop_step c rest input :
  text_loop os b (uninitialized os) (String c rest) input =
  if char_value c =? 0 then Throw InvalidInput
  else obind (character_descriptors os b c)
         (fun l => text_loop os b (uninitialized os) rest (input ++ l)).
Proof.
  cbn [text_loop]. rewrite switch_char.
  rewrite !(queue_key_app input), (queue_char_app input).
  unfold character_descriptors.
  destruct (Z.eqb_spec (char_value c) 10) as [E10 | N10].
  { rewrite E10. cbv [orb]. change (10 =? 0) with false. cbv iota.
    destruct (queue_key os b [] Key.Return Click); reflexivity. }
  destruct (Z.eqb_spec (char_value c) 13) as [E13 | N13].
  { rewrite E13. cbv [orb]. change (13 =? 0) with false. cbv iota.
    destruct (queue_key os b [] Key.Return Click); reflexivity. }
  cbv [orb].
  destruct (Z.eqb_spec (char_value c) 9) as [E9 | N9].
  { rewrite E9. change (9 =? 0) with false. cbv iota.
    destruct (queue_key os b [] Key.Tab Click); reflexivity. }
  destruct (Z.eqb_spec (char_value c) 0) as [E0 | N0]; reflexivity.
Qed.

Lemma text_loop_null text : forall input,
  In Ascii.zero (list_ascii_of_string text) ->
  text_loop os b (uninitialized os) text input = Throw InvalidInput.
Proof.
  induction text as [|c rest IH]; intros input Hin; [destruct Hin|].
  rewrite text_loop_step.
  destruct (Z.eqb_spec (char_value c) 0) as [E0 | N0]; [reflexivity|].
  destruct Hin as [Hc | Hin].
  - elim N0. apply char_value_zero, Hc.
  - destruct (character_descriptors_shape c) as (l & -> & _). simpl.
    now apply IH.
Qed.

Lemma text_loop_descriptors text : forall input,
  ~ In Ascii.zero (list_ascii_of_string text) ->
  exists per_character,
    Forall2 (fun c l =>
               character_descriptors os b c = Ok l /\ character_shape l)
            (list_ascii_of_string text) per_character /\
    text_loop os b (uninitialized os) text input =
    Ok (input ++ List.concat per_character).
Proof.
  induction text as [|c rest IH]; intros input Hnull.
  - exists []. split; [constructor|]. simpl. now rewrite app_nil_r.
  - rewrite text_loop_step.
    destruct (Z.eqb_spec (char_value c) 0) as [E0 | N0].
    { elim Hnull. left. apply char_value_zero, E0. }
    destruct (character_descriptors_shape c) as (l & El & Hl).
    destruct (IH (input ++ l)) as (ls & Hls & Els).
    { intros Hin. apply Hnull. now right. }
    exists (l :: ls). split; [constructor; auto|].
    rewrite El. simpl. rewrite Els. now rewrite <- app_assoc.
Qed.

End Text.

(** C5.  A text with a null character makes [text] throw an [InputError]
    of type [InvalidInput]; nothing is handed to the injection sink, the
    batch built so far being dropped, and the object is as before. *)
Theorem text_null_invalid_input (os : OS) (s : string) (st : State) :
  In Ascii.zero (list_ascii_of_string s) ->
  text os s st = (Throw InvalidInput, st).
Proof.
  intros Hin. destruct s as [|c rest]; [destruct Hin|].
  unfold text, bind, reading.
  now rewrite (text_loop_null os (self st) (String c rest) [] Hin).
Qed.

Lemma text_null_invalid_input_witness :
  In Ascii.zero (list_ascii_of_string (String "a" (String Ascii.zero "b"))) /\
  text desktop (String "a" (String Ascii.zero "b")) (fresh Settings.default)
  = (Throw InvalidInput, fresh Settings.default).
Proof.
  assert (In Ascii.zero
            (list_ascii_of_string (String "a" (String Ascii.zero "b"))))
    as Hin by (simpl; right; left; reflexivity).
  split; [exact Hin|].
  exact (text_null_invalid_input desktop _ (fresh Settings.default) Hin).
Defined.

(** The batch of a text, [char] by [char]: for a text without a null
    character, [text] hands the sink one batch (none for the empty text),
    the descriptors of its [char]s one after the other in the order of the
    text.  A newline or carriage return contributes a click of [Return], a
    tab a click of [Tab], any other [char] a Unicode injection; each
    contribution has the shape of one down/up pair or of two. *)
Theorem text_descriptors (os : OS) (s : string) (st : State) :
  ~ In Ascii.zero (list_ascii_of_string s) ->
  exists per_character,
    Forall2 (fun c l =>
               character_descriptors os (self st) c = Ok l /\
               character_shape l)
            (list_ascii_of_string s) per_character /\
    text os s st =
    match s with
    | EmptyString => (Ok tt, st)
    | _ => send_input os (List.concat per_character) st
    end.
Proof.
  intros Hnull.
  destruct (text_loop_descriptors os (self st) s [] Hnull)
    as (ls & Hls & Els).
  exists ls. split; [exact Hls|].
  destruct s as [|c rest]; [reflexivity|].
  unfold text, bind, reading. now rewrite Els.
Qed.

Lemma text_descriptors_witness :
  ~ In Ascii.zero (list_ascii_of_string (String "a" (String "010" "b"))) /\
  exists per_character,
    Forall2 (fun c l =>
               character_descriptors desktop
                 (self (fresh Settings.default)) c = Ok l /\
               character_shape l)
            (list_ascii_of_string (String "a" (String "010" "b")))
            per_character /\
    text desktop (String "a" (String "010" "b")) (fresh Settings.default) =
    send_input desktop (List.concat per_character) (fresh Settings.default).
Proof.
  assert (~ In Ascii.zero
              (list_ascii_of_string (String "a" (String "010" "b"))))
    as Hnull.
  { simpl. intros [H | [H | [H | []]]]; discriminate H. }
  split; [exact Hnull|].
  exact (text_descriptors desktop _ (fresh Settings.default) Hnull).
Defined.

(** The loop of [text] never takes the surrogate branch of [queue_char]:
    a [wchar_t] made from a [char] lies below 0x10000, and every
    character contributes exactly 2 descriptors. *)
Lemma character_descriptors_two os b c :
  exists d u, character_descriptors os b c = Ok [d; u].
Proof.
  unfold character_descriptors, queue_key, queue_char.
  destruct (key_to_vk_total Key.Return) as [vr ->].
  destruct (key_to_vk_total Key.Tab) as [vt ->].
  rewrite u16_below.
  destruct ((char_value c =? 10) || (char_value c =? 13));
    [do 2 eexists; reflexivity|].
  destruct (char_value c =? 9); do 2 eexists; reflexivity.
Qed.

(** C6 fails for a character that needs a surrogate pair: the loop of
    [text] takes the [char]s of the string one by one, so that U+1F600,
    the four bytes F0 9F 98 80 of its UTF-8 form, is sent as 8
    descriptors, the down and up of the four sign-extended bytes FFF0,
    FF9F, FF98, FF80, and not as the 4 descriptors of the surrogates D83D
    and DE00. *)
Theorem text_surrogate_pair_missing :
  text desktop (String "240" (String "159" (String "152" (String "128" ""))))
    (fresh Settings.default) =
  (Ok tt,
   mkState (Bego_new Settings.default)
     [[INPUT_KEYBOARD KEYEVENTF_UNICODE 0 0xFFF0 EVENT_MARKER;
       INPUT_KEYBOARD (Z.lor KEYEVENTF_UNICODE KEYEVENTF_KEYUP) 0 0xFFF0
         EVENT_MARKER;
       INPUT_KEYBOARD KEYEVENTF_UNICODE 0 0xFF9F EVENT_MARKER;
       INPUT_KEYBOARD (Z.lor KEYEVENTF_UNICODE KEYEVENTF_KEYUP) 0 0xFF9F
         EVENT_MARKER;
       INPUT_KEYBOARD KEYEVENTF_UNICODE 0 0xFF98 EVENT_MARKER;
       INPUT_KEYBOARD (Z.lor KEYEVENTF_UNICODE KEYEVENTF_KEYUP) 0 0xFF98
         EVENT_MARKER;
       INPUT_KEYBOARD KEYEVENTF_UNICODE 0 0xFF80 EVENT_MARKER;
       INPUT_KEYBOARD (Z.lor KEYEVENTF_UNICODE KEYEVENTF_KEYUP) 0 0xFF80
         EVENT_MARKER]]).
Proof. vm_compute. reflexivity. Qed.

(** ** Buttons and scrolling *)

(** C7.  A click of the pseudo-button [ScrollUp] is the call
    [scroll(-1, Vertical)]: one batch of one descriptor, a vertical wheel
    event of one notch, and no button descriptor; a release of any of the
    four scroll pseudo-buttons returns without handing anything to the
    sink. *)
Theorem button_scroll_up_is_scroll (os : OS) (st : State) :
  button os ScrollUp Click st = scroll os (-1) Vertical st /\
  scroll os (-1) Vertical st =
    send_input os
      [create_mouse_event MOUSEEVENTF_WHEEL WHEEL_DELTA 0 0
         (dw_extra_info (self st))] st /\
  button os ScrollUp Release st = (Ok tt, st) /\
  button os ScrollDown Release st = (Ok tt, st) /\
  button os ScrollLeft Release st = (Ok tt, st) /\
  button os ScrollRight Release st = (Ok tt, st).
Proof.
  split; [|split; [reflexivity | repeat split]].
  unfold button, scroll. cbv [key_down bind reading ret].
  unfold send_input.
  match goal with
  | |- context [SendInput_accepts os (sent st) ?i] =>
      destruct (SendInput_accepts os (sent st) i)
  end; reflexivity.
Qed.

(** ** Relative moves *)




(** ** The marker *)

Lemma perform_marker os c st :
  dw_extra_info (self (snd (perform os c st))) = dw_extra_info (self st).
Proof.
  destruct c as [s | k d | scan d | b d | len a | x y c]; simpl perform.
  - now rewrite text_self.
  - destruct (key_effect os k d st) as (input & _ & ->).
    destruct (SendInput_accepts os (sent st) input); [|reflexivity].
    destruct d; reflexivity.
  - destruct (raw_effect os scan d st) as (input & ->).
    destruct (SendInput_accepts os (sent st) input); [|reflexivity].
    destruct d; reflexivity.
  - now rewrite button_self.
  - now rewrite scroll_self.
  - now rewrite move_mouse_self.
Qed.

Lemma perform_all_marker os cs : forall st,
  dw_extra_info (self (perform_all os cs st)) = dw_extra_info (self st).
Proof.
  induction cs as [|c cs IH]; intros st; [reflexivity|].
  simpl. pose proof (perform_marker os c st) as Hc.
  destruct (perform os c st) as [[[] | e | ] st']; simpl in Hc;
    rewrite ?IH; exact Hc.
Qed.

Lemma Bego_new_marker settings : get_marker_value (Bego_new settings) <> 0.
Proof.
  unfold get_marker_value, Bego_new. simpl.
  destruct (Z.eqb_spec (Settings.windows_dw_extra_info settings) 0);
    simpl; [discriminate | assumption].
Qed.

(** C10.  Settings whose [windows_dw_extra_info] is 0 give an instance
    whose marker is [EVENT_MARKER], 0x12345678; so the marker of an
    instance is never 0, at construction and after any calls. *)
Theorem marker_never_zero :
  (forall release accel,
     get_marker_value (Bego_new (Settings.mk 0 release accel))
     = EVENT_MARKER) /\
  EVENT_MARKER = 0x12345678 /\
  (forall os settings cs,
     get_marker_value (self (perform_all os cs (fresh settings))) <> 0).
Proof.
  split; [reflexivity|]. split; [reflexivity|].
  intros os settings cs. unfold get_marker_value.
  rewrite perform_all_marker. apply Bego_new_marker.
Qed.

(** ** Teardown *)

Lemma filter_length_lt {A} (f : A -> bool) (l : list A) x :
  In x l -> f x = false ->
  (List.length (filter f l) < List.length l)%nat.
Proof.
  intros Hin Hf. induction l as [|a l IH]; [destruct Hin|].
  pose proof (filter_length_le f l) as Hle. simpl.
  destruct Hin as [-> | Hin].
  - rewrite Hf. simpl. lia.
  - specialize (IH Hin). destruct (f a); simpl; lia.
Qed.

Section Teardown.

Variable os : OS.

(** A release that returns takes the key out of the vector that holds
    it. *)
Lemma key_release_shrinks k st st' :
  In k (Vec.elems (held_keys (self st))) ->
  key os k Release st = (Ok tt, st') ->
  Nat.eqb (Vec.size (held_keys (self st')))
          (Vec.size (held_keys (self st))) = false.
Proof.
  intros Hin H. destruct (key_effect os k Release st) as (input & _ & E).
  rewrite E in H.
  destruct (SendInput_accepts os (sent st) input); [|discriminate H].
  injection H as <-. apply Nat.eqb_neq. unfold Vec.size. simpl.
  assert (List.length
            (filter (fun y => negb (Key.eqb y k))
               (Vec.elems (held_keys (self st)))) <
          List.length (Vec.elems (held_keys (self st))))%nat as Hlt.
  { apply filter_length_lt with (x := k); [exact Hin|].
    now rewrite KeyFacts.eqb_refl. }
  lia.
Qed.

(** C9.  After [key(Key::A, Direction::Press)] has returned on a fresh
    instance, [held] reports the one key [A] and no scan code.  The
    destructor of that instance, with [release_keys_when_dropped] set,
    makes one call [key(Key::A, Direction::Release)] and no other: the
    sink receives one more batch, the key-up descriptor of [A].  When
    that release throws, the failure is caught and the destructor returns;
    when it returns, it has erased [A] from the vector that the loop
    walks, and the loop goes on with invalidated iterators. *)
Theorem press_then_drop (settings : Settings.t) (st1 : State) :
  Settings.release_keys_when_dropped settings = true ->
  key os Key.A Press (fresh settings) = (Ok tt, st1) ->
  held (self st1) = ([Key.A], []) /\
  snd (Bego_drop os st1) = snd (key os Key.A Release st1) /\
  sent (snd (key os Key.A Release st1)) =
    sent st1 ++
    [[create_keybd_event KEYEVENTF_KEYUP chr_A
        (translate_key os chr_A MAPVK_VK_TO_VSC_EX)
        (dw_extra_info (self st1))]] /\
  fst (Bego_drop os st1) =
    match fst (key os Key.A Release st1) with
    | Ok _ => Invalidated
    | Throw _ => Dropped
    | Trap => Stopped
    end.
Proof.
  intros Hrel Hpress.
  destruct (key_effect os Key.A Press (fresh settings))
    as (input & _ & Hkey).
  rewrite Hkey in Hpress.
  destruct (SendInput_accepts os (sent (fresh settings)) input);
    [|discriminate Hpress].
  injection Hpress as <-.
  set (st1 := mkState _ _).
  assert (held (self st1) = ([Key.A], [])) as Hheld by reflexivity.
  assert (release_keys_when_dropped (self st1) = true) as Hflag
    by exact Hrel.
  assert (In Key.A (Vec.elems (held_keys (self st1)))) as Hin
    by (left; reflexivity).
  pose proof (key_release_shrinks Key.A st1) as Hshrink.
  destruct (key_effect os Key.A Release st1) as (input' & Hq & Hkey').
  assert (Bego_drop os st1 =
          match key os Key.A Release st1 with
          | (Ok _, st') => (Invalidated, st')
          | (Throw _, st') => (Dropped, st')
          | (Trap, st') => (Stopped, st')
          end) as Hdrop.
  { unfold Bego_drop. rewrite Hflag. cbn [negb].
    change (seq 0 (Vec.size (held_keys (self st1)))) with [0%nat].
    cbn [release_keys].
    change (nth_error (Vec.elems (held_keys (self st1))) 0)
      with (Some Key.A).
    destruct (SendInput_accepts os (sent st1) input').
    + rewrite Hkey'. now rewrite (Hshrink _ Hin Hkey').
    + now rewrite Hkey'. }
  split; [exact Hheld|]. split; [|split].
  - rewrite Hdrop. now destruct (key os Key.A Release st1) as [[[]|e|] st'].
  - rewrite Hkey'. unfold queue_key in Hq. cbn in Hq.
    injection Hq as <-.
    destruct (SendInput_accepts os _ _); reflexivity.
  - rewrite Hdrop. now destruct (key os Key.A Release st1) as [[[]|e|] st'].
Qed.

End Teardown.

Lemma press_then_drop_witness :
  Settings.release_keys_when_dropped Settings.default = true /\
  key desktop Key.A Press (fresh Settings.default) =
    (Ok tt, snd (key desktop Key.A Press (fresh Settings.default))) /\
  held (self (snd (key desktop Key.A Press (fresh Settings.default))))
    = ([Key.A], []) /\
  snd (Bego_drop desktop
         (snd (key desktop Key.A Press (fresh Settings.default))))
    = snd (key desktop Key.A Release
             (snd (key desktop Key.A Press (fresh Settings.default)))) /\
  sent (snd (key desktop Key.A Release
               (snd (key desktop Key.A Press (fresh Settings.default))))) =
    sent (snd (key desktop Key.A Press (fresh Settings.default))) ++
    [[create_keybd_event KEYEVENTF_KEYUP chr_A
        (translate_key desktop chr_A MAPVK_VK_TO_VSC_EX)
        (dw_extra_info
           (self (snd (key desktop Key.A Press (fresh Settings.default)))))]]
    /\
  fst (Bego_drop desktop
         (snd (key desktop Key.A Press (fresh Settings.default))))
    = Invalidated.
Proof.
  split; [reflexivity|]. split; [reflexivity|].
  exact (press_then_drop desktop Settings.default
           (snd (key desktop Key.A Press (fresh Settings.default)))
           eq_refl eq_refl).
Defined.

(** * Further properties of the code *)

(** ** The key tables, both ways *)

Lemma key_round_trip_aux k :
  k <> Key.Unicode ->
  exists vk, key_to_vk k = Ok vk /\ vk_to_key vk = Ok k.
Proof.
  intros Hk. destruct k; try (eexists; split; reflexivity). now elim Hk.
Qed.

Lemma vk_to_key_outcome vk :
  vk_to_key vk = Throw Mapping \/
  exists k, vk_to_key vk = Ok k /\ key_to_vk k = Ok vk /\ k <> Key.Unicode.
Proof.
  destruct vk as [|p|p]; try (left; reflexivity).
  do 9 (try (destruct p as [p|p|]; try (left; reflexivity)));
    right; eexists; (split; [reflexivity|]); (split; [reflexivity|]);
    discriminate.
Qed.

(** X1.  Decoding then encoding: a virtual-key code that [vk_to_key]
    accepts is the code that [key_to_vk] gives for the decoded key, which
    is never the [Unicode] sentinel; every other code, 0 included, that is
    every code that is not the code of a key of the table, makes
    [vk_to_key] throw [Mapping]. *)
Theorem vk_to_key_inverse (vk : Z) :
  (exists k,
     vk_to_key vk = Ok k /\ key_to_vk k = Ok vk /\ k <> Key.Unicode) \/
  (vk_to_key vk = Throw Mapping /\
   forall k, k <> Key.Unicode -> key_to_vk k <> Ok vk).
Proof.
  destruct (vk_to_key_outcome vk) as [Hthrow | Hok]; [right | now left].
  split; [exact Hthrow|]. intros k Hk E.
  destruct (key_round_trip_aux k Hk) as (v & Ev & Dv).
  rewrite Ev in E. injection E as ->. rewrite Hthrow in Dv. discriminate Dv.
Qed.

Example vk_to_key_page_down :
  vk_to_key VK_NEXT = Ok Key.PageDown /\ vk_to_key VK_NUMLOCK = Throw Mapping.
Proof. split; reflexivity. Qed.

(** X2.  [key_to_vk] gives different keys different codes (the [Unicode]
    sentinel, sent as 0, included): no two keys reach the sink as the same
    virtual key. *)
Theorem key_to_vk_injective (k1 k2 : Key.t) :
  key_to_vk k1 = key_to_vk k2 -> k1 = k2.
Proof.
  intros H.
  assert (forall a b, a <> Key.Unicode -> key_to_vk a = key_to_vk b -> a = b)
    as Hone.
  { intros a b Ha Hab.
    destruct (key_round_trip_aux a Ha) as (va & Ea & Da).
    assert (b = Key.Unicode \/ b <> Key.Unicode) as [-> | Hb].
    { destruct b; (right; discriminate) || (left; reflexivity). }
    - rewrite Ea in Hab. injection Hab as ->. discriminate Da.
    - destruct (key_round_trip_aux b Hb) as (vb & Eb & Db).
      rewrite Ea, Eb in Hab. injection Hab as ->. congruence. }
  assert (k1 = Key.Unicode \/ k1 <> Key.Unicode) as [-> | H1].
  { destruct k1; (right; discriminate) || (left; reflexivity). }
  - assert (k2 = Key.Unicode \/ k2 <> Key.Unicode) as [-> | H2].
    { destruct k2; (right; discriminate) || (left; reflexivity). }
    + reflexivity.
    + symmetry. apply Hone; [exact H2 | now symmetry].
  - now apply Hone.
Qed.

Lemma key_to_vk_injective_witness :
  key_to_vk Key.Menu = key_to_vk Key.Menu /\ Key.Menu = Key.Menu.
Proof.
  split; [reflexivity|].
  exact (key_to_vk_injective Key.Menu Key.Menu eq_refl).
Defined.

(** X3.  The extended-key flag of the descriptor of a key: the press of a
    key is one descriptor with the code of the key, the scan code of the
    layout and the marker; its flags are [KEYEVENTF_EXTENDEDKEY] for the
    right Alt and Control, the arrows, Insert, Delete, Home, End, PageUp,
    PageDown, PrintScreen and the numpad divide, and 0 for every other
    key. *)
Theorem queue_key_extended (os : OS) (b : Bego) (k : Key.t) :
  exists vk,
    key_to_vk k = Ok vk /\
    queue_key os b [] k Press =
    Ok [INPUT_KEYBOARD
          (if existsb (Key.eqb k) extended_keys
           then KEYEVENTF_EXTENDEDKEY else 0)
          vk (translate_key os vk MAPVK_VK_TO_VSC_EX) (dw_extra_info b)].
Proof. destruct k; eexists; split; reflexivity. Qed.

(** ** Outcomes and effects of the calls *)

Section Calls.

Variable os : OS.

Lemma send_input_sent input st :
  sent (snd (send_input os input st)) = sent st ++ [input].
Proof.
  unfold send_input. now destruct (SendInput_accepts os (sent st) input).
Qed.

Lemma send_input_outcome input st :
  fst (send_input os input st) = Ok tt \/
  fst (send_input os input st) = Throw Simulate.
Proof.
  unfold send_input.
  destruct (SendInput_accepts os (sent st) input); [now left | now right].
Qed.

Lemma text_loop_outcome b text :
  (In Ascii.zero (list_ascii_of_string text) /\
   text_loop os b (uninitialized os) text [] = Throw InvalidInput) \/
  (~ In Ascii.zero (list_ascii_of_string text) /\
   exists input, text_loop os b (uninitialized os) text [] = Ok input).
Proof.
  destruct (in_dec ascii_dec Ascii.zero (list_ascii_of_string text))
    as [Hin | Hnin].
  - left. split; [exact Hin | now apply text_loop_null].
  - right. split; [exact Hnin|].
    destruct (text_loop_descriptors os b text [] Hnin) as (ls & _ & ->).
    eexists; reflexivity.
Qed.

(** X4.  [text] throws [InvalidInput] exactly for the texts that contain a
    null character, whatever the sink does. *)
Theorem text_invalid_input_iff (s : string) (st : State) :
  fst (text os s st) = Throw InvalidInput <->
  In Ascii.zero (list_ascii_of_string s).
Proof.
  destruct s as [|c rest].
  { simpl. split; [discriminate | intros []]. }
  unfold text, bind, reading.
  destruct (text_loop_outcome (self st) (String c rest))
    as [[Hin ->] | [Hnin [input ->]]].
  - simpl. split; auto.
  - split; [|intros H; contradiction].
    destruct (send_input_outcome input st) as [-> | ->]; discriminate.
Qed.

(** What any call may throw. *)
Lemma perform_throws c st e :
  fst (perform os c st) = Throw e ->
  e = Simulate \/
  e = InvalidInput /\
  exists s, c = call_text s /\ In Ascii.zero (list_ascii_of_string s).
Proof.
  destruct c as [s | k d | scan d | b d | len a | x y c]; simpl perform.
  - destruct s as [|c rest]; [discriminate|].
    unfold text, bind, reading.
    destruct (text_loop_outcome (self st) (String c rest))
      as [[Hin ->] | [Hnin [input ->]]].
    + simpl. intros [= <-]. right. split; [reflexivity|]. eauto.
    + destruct (send_input_outcome input st) as [-> | ->];
        [discriminate | intros [= <-]; now left].
  - destruct (key_effect os k d st) as (input & _ & ->).
    destruct (SendInput_accepts os (sent st) input);
      [discriminate | intros [= <-]; now left].
  - destruct (raw_effect os scan d st) as (input & ->).
    destruct (SendInput_accepts os (sent st) input);
      [discriminate | intros [= <-]; now left].
  - unfold button, scroll.
    destruct b, d;
      cbv [key_down key_up bind reading ret send_input Int.mul Int.neg];
      repeat match goal with
      | |- context [SendInput_accepts os ?h ?i] =>
          destruct (SendInput_accepts os h i)
      end; simpl; try discriminate; intros [= <-]; now left.
  - unfold scroll. destruct a; cbv [bind reading send_input];
      match goal with
      | |- context [SendInput_accepts os ?h ?i] =>
          destruct (SendInput_accepts os h i)
      end; simpl; try discriminate; intros [= <-]; now left.
  - assert (forall x y, fst (move_mouse_abs os x y st) = Throw e ->
                        e = Simulate) as Habs.
    { intros x' y'.
      unfold move_mouse_abs, main_display, bind, throw, ret, trap, reading.
      destruct ((SM_CXSCREEN os =? 0) || (SM_CYSCREEN os =? 0));
        [now intros [= <-]|].
      destruct (scale x' _); [|discriminate].
      destruct (scale y' _); [|discriminate].
      match goal with
      | |- context [send_input os ?i st] =>
          destruct (send_input_outcome i st) as [-> | ->]
      end; [discriminate | now intros [= <-]]. }
    destruct c; [intros H; left; eapply Habs; exact H|].
    unfold move_mouse, bind, reading, location, throw, ret.
    destruct (windows_subject_to_mouse_speed_and_acceleration_level
                (self st)).
    + match goal with
      | |- context [send_input os ?i st] =>
          destruct (send_input_outcome i st) as [-> | ->]
      end; [discriminate | intros [= <-]; now left].
    + destruct (GetCursorPos os) as [[cx cy]|];
        [intros H; left; eapply Habs; exact H | intros [= <-]; now left].
Qed.

(** X5.  Called with the declared enumerators of [Key] and [Button], no
    public operation throws a [Mapping] error: [key_to_vk] maps every
    enumerator, and a call that throws throws [Simulate], or
    [InvalidInput] when it is [text] on a text with a null character. *)
Theorem perform_never_mapping (c : call) (st : State) :
  fst (perform os c st) <> Throw Mapping.
Proof.
  intros H. destruct (perform_throws c st Mapping H) as [E | [E _]];
    discriminate E.
Qed.

Lemma perform_self c st :
  fst (perform os c st) <> Ok tt ->
  self (snd (perform os c st)) = self st.
Proof.
  destruct c as [s | k d | scan d | b d | len a | x y c]; simpl perform;
    intros Hfail.
  - apply text_self.
  - destruct (key_effect os k d st) as (input & _ & E). rewrite E in *.
    destruct (SendInput_accepts os (sent st) input);
      [now elim Hfail | reflexivity].
  - destruct (raw_effect os scan d st) as (input & E). rewrite E in *.
    destruct (SendInput_accepts os (sent st) input);
      [now elim Hfail | reflexivity].
  - apply button_self.
  - apply scroll_self.
  - apply move_mouse_self.
Qed.

(** X6.  A call that throws leaves the object as it was: the held keys are
    updated only after the sink has accepted the batch. *)
Theorem failed_call_keeps_object (c : call) (st : State) (e : ErrorType) :
  fst (perform os c st) = Throw e ->
  self (snd (perform os c st)) = self st.
Proof.
  intros H. apply perform_self. rewrite H. discriminate.
Qed.

(** X7.  A [Click], of a key or of a scan code, never changes the object,
    whether the sink accepts it or not. *)
Theorem click_keeps_object (k : Key.t) (scan : Z) (st : State) :
  self (snd (key os k Click st)) = self st /\
  self (snd (raw os scan Click st)) = self st.
Proof.
  split.
  - destruct (key_effect os k Click st) as (input & _ & ->).
    now destruct (SendInput_accepts os (sent st) input).
  - destruct (raw_effect os scan Click st) as (input & ->).
    now destruct (SendInput_accepts os (sent st) input).
Qed.

(** X8.  Only [key] and [raw] touch the object: [text], [button],
    [scroll] and [move_mouse] leave it, and so what [held] reports, as it
    was. *)
Theorem other_calls_keep_object (st : State) :
  (forall s, self (snd (text os s st)) = self st) /\
  (forall b d, self (snd (button os b d st)) = self st) /\
  (forall length a, self (snd (scroll os length a st)) = self st) /\
  (forall x y c, self (snd (move_mouse os x y c st)) = self st).
Proof.
  repeat split; intros.
  - apply text_self.
  - apply button_self.
  - apply scroll_self.
  - apply move_mouse_self.
Qed.

Lemma filter_snoc_absent {A} (eqb : A -> A -> bool) (l : list A) k :
  (forall a b, eqb a b = true <-> a = b) ->
  ~ In k l ->
  filter (fun y => negb (eqb y k)) (l ++ [k]) = l.
Proof.
  intros Heqb Hk. rewrite filter_app. simpl.
  assert (eqb k k = true) as -> by now apply Heqb.
  simpl. rewrite app_nil_r.
  induction l as [|a l IH]; [reflexivity|]. simpl.
  destruct (eqb a k) eqn:E.
  - apply Heqb in E. subst a. elim Hk. now left.
  - simpl. f_equal. apply IH. intros Hin. apply Hk. now right.
Qed.

(** X9.  Press, then release: when a key that is not held is pressed and
    then released, both calls returning, [held] reports what it reported
    before the press. *)
Theorem key_press_release_restores (k : Key.t) (st st1 st2 : State) :
  ~ In k (fst (held (self st))) ->
  key os k Press st = (Ok tt, st1) ->
  key os k Release st1 = (Ok tt, st2) ->
  held (self st2) = held (self st).
Proof.
  intros Hk H1 H2.
  destruct (key_effect os k Press st) as (i1 & _ & E1).
  rewrite E1 in H1.
  destruct (SendInput_accepts os (sent st) i1); [|discriminate H1].
  injection H1 as <-.
  destruct (key_effect os k Release
              (mkState
                 (set_held_keys (self st)
                    (Vec.push_back (held_keys (self st)) k))
                 (sent st ++ [i1]))) as (i2 & _ & E2).
  rewrite E2 in H2.
  destruct (SendInput_accepts os _ i2); [|discriminate H2].
  injection H2 as <-.
  unfold held. simpl. f_equal.
  apply filter_snoc_absent; [apply KeyFacts.eqb_eq | exact Hk].
Qed.

(** X10.  The same for a scan code. *)
Theorem raw_press_release_restores (scan : Z) (st st1 st2 : State) :
  ~ In (Int.u16 scan) (snd (held (self st))) ->
  raw os scan Press st = (Ok tt, st1) ->
  raw os scan Release st1 = (Ok tt, st2) ->
  held (self st2) = held (self st).
Proof.
  intros Hk H1 H2.
  destruct (raw_effect os scan Press st) as (i1 & E1).
  rewrite E1 in H1.
  destruct (SendInput_accepts os (sent st) i1); [|discriminate H1].
  injection H1 as <-.
  destruct (raw_effect os scan Release
              (mkState
                 (set_held_scancodes (self st)
                    (Vec.push_back (held_scancodes (self st))
                       (Int.u16 scan)))
                 (sent st ++ [i1]))) as (i2 & E2).
  rewrite E2 in H2.
  destruct (SendInput_accepts os _ i2); [|discriminate H2].
  injection H2 as <-.
  unfold held. simpl. f_equal.
  apply filter_snoc_absent; [apply Z.eqb_eq | exact Hk].
Qed.

(** X11.  A release that returns removes every entry of the key, however
    often it was pressed, keeps the other keys in their order and leaves
    the scan codes alone; a release of a key that is not held still sends
    its key-up descriptor and changes nothing. *)
Theorem key_release_removes_all (k : Key.t) (st st' : State) :
  key os k Release st = (Ok tt, st') ->
  ~ In k (fst (held (self st'))) /\
  fst (held (self st')) =
    filter (fun y => negb (Key.eqb y k)) (fst (held (self st))) /\
  snd (held (self st')) = snd (held (self st)) /\
  (~ In k (fst (held (self st))) -> held (self st') = held (self st)) /\
  exists input, sent st' = sent st ++ [input] /\ List.length input = 1%nat.
Proof.
  intros H.
  destruct (key_effect os k Release st) as (input & Hq & E).
  rewrite E in H.
  destruct (SendInput_accepts os (sent st) input); [|discriminate H].
  injection H as <-. unfold held. simpl.
  split; [|split; [reflexivity | split; [reflexivity | split]]].
  - intros Hin. apply filter_In in Hin as [_ Hneq].
    now rewrite KeyFacts.eqb_refl in Hneq.
  - intros Hk. f_equal.
    induction (Vec.elems (held_keys (self st))) as [|a l IH];
      [reflexivity|]. simpl.
    destruct (Key.eqb a k) eqn:Ea.
    + apply KeyFacts.eqb_eq in Ea. subst a. elim Hk. now left.
    + simpl. f_equal. apply IH. intros Hin. apply Hk. now right.
  - exists input. split; [reflexivity|].
    unfold queue_key in Hq. destruct (key_to_vk_total k) as [vk Evk].
    rewrite Evk in Hq. simpl in Hq. now injection Hq as <-.
Qed.

End Calls.

Lemma failed_call_keeps_object_witness :
  fst (perform locked_desktop (call_key Key.A Press) (fresh Settings.default))
    = Throw Simulate /\
  self (snd (perform locked_desktop (call_key Key.A Press)
               (fresh Settings.default)))
    = self (fresh Settings.default).
Proof.
  split; [reflexivity|].
  exact (failed_call_keeps_object locked_desktop (call_key Key.A Press)
           (fresh Settings.default) Simulate eq_refl).
Defined.

Lemma key_press_release_restores_witness :
  ~ In Key.B (fst (held (self (snd (key desktop Key.A Press
                                      (fresh Settings.default)))))) /\
  key desktop Key.B Press
    (snd (key desktop Key.A Press (fresh Settings.default)))
  = (Ok tt,
     snd (key desktop Key.B Press
            (snd (key desktop Key.A Press (fresh Settings.default))))) /\
  key desktop Key.B Release
    (snd (key desktop Key.B Press
            (snd (key desktop Key.A Press (fresh Settings.default)))))
  = (Ok tt,
     snd (key desktop Key.B Release
            (snd (key desktop Key.B Press
                    (snd (key desktop Key.A Press
                            (fresh Settings.default))))))) /\
  held (self (snd (key desktop Key.B Release
            (snd (key desktop Key.B Press
                    (snd (key desktop Key.A Press
                            (fresh Settings.default))))))))
  = held (self (snd (key desktop Key.A Press (fresh Settings.default)))).
Proof.
  assert (~ In Key.B
            (fst (held (self (snd (key desktop Key.A Press
                                     (fresh Settings.default)))))))
    as Hk.
  { simpl. intros [H | []]. discriminate H. }
  split; [exact Hk|]. split; [reflexivity|]. split; [reflexivity|].
  exact (key_press_release_restores desktop Key.B _ _ _ Hk eq_refl eq_refl).
Defined.

Lemma raw_press_release_restores_witness :
  ~ In (Int.u16 30) (snd (held (self (fresh Settings.default)))) /\
  raw desktop 30 Press (fresh Settings.default)
  = (Ok tt, snd (raw desktop 30 Press (fresh Settings.default))) /\
  raw desktop 30 Release (snd (raw desktop 30 Press (fresh Settings.default)))
  = (Ok tt,
     snd (raw desktop 30 Release
            (snd (raw desktop 30 Press (fresh Settings.default))))) /\
  held (self (snd (raw desktop 30 Release
                     (snd (raw desktop 30 Press (fresh Settings.default))))))
  = held (self (fresh Settings.default)).
Proof.
  assert (~ In (Int.u16 30) (snd (held (self (fresh Settings.default)))))
    as Hk by (intros []).
  split; [exact Hk|]. split; [reflexivity|]. split; [reflexivity|].
  exact (raw_press_release_restores desktop 30 _ _ _ Hk eq_refl eq_refl).
Defined.

Lemma key_release_removes_all_witness :
  key desktop Key.A Release
    (perform_all desktop [call_key Key.A Press; call_key Key.B Press;
                          call_key Key.A Press] (fresh Settings.default))
  = (Ok tt,
     snd (key desktop Key.A Release
            (perform_all desktop [call_key Key.A Press; call_key Key.B Press;
                                  call_key Key.A Press]
               (fresh Settings.default)))) /\
  fst (held (self (snd (key desktop Key.A Release
            (perform_all desktop [call_key Key.A Press; call_key Key.B Press;
                                  call_key Key.A Press]
               (fresh Settings.default))))))
  = [Key.B].
Proof.
  split; [reflexivity|].
  destruct (key_release_removes_all desktop Key.A
              (perform_all desktop
                 [call_key Key.A Press; call_key Key.B Press;
                  call_key Key.A Press] (fresh Settings.default))
              _ eq_refl) as (_ & Hfilter & _).
  exact Hfilter.
Defined.

(** ** Batches *)

Section Batches.

Variable os : OS.

Lemma key_sent k d st :
  exists input,
    queue_key os (self st) [] k d = Ok input /\
    sent (snd (key os k d st)) = sent st ++ [input].
Proof.
  destruct (key_effect os k d st) as (input & Hq & ->).
  exists input. split; [exact Hq|].
  now destruct (SendInput_accepts os (sent st) input).
Qed.

(** X12.  A click of a key is the press and the release in one batch:
    the batch of [key(k, Click)] is the descriptor that [key(k, Press)]
    sends followed by the descriptor that [key(k, Release)] sends; the
    same holds for [raw]. *)
Theorem click_is_press_then_release (k : Key.t) (scan : Z) (st : State) :
  (exists p r,
     sent (snd (key os k Press st)) = sent st ++ [[p]] /\
     sent (snd (key os k Release st)) = sent st ++ [[r]] /\
     sent (snd (key os k Click st)) = sent st ++ [[p; r]] /\
     down_up p r) /\
  (exists p r,
     sent (snd (raw os scan Press st)) = sent st ++ [[p]] /\
     sent (snd (raw os scan Release st)) = sent st ++ [[r]] /\
     sent (snd (raw os scan Click st)) = sent st ++ [[p; r]] /\
     down_up p r).
Proof.
  split.
  - destruct (key_sent k Press st) as (ip & Hp & ->).
    destruct (key_sent k Release st) as (ir & Hr & ->).
    destruct (key_sent k Click st) as (ic & Hc & ->).
    unfold queue_key in *. destruct (key_to_vk_total k) as [vk Evk].
    rewrite Evk in *. simpl in *.
    injection Hp as <-. injection Hr as <-. injection Hc as <-.
    do 2 eexists. do 3 (split; [reflexivity|]). apply down_up_intro.
    destruct (is_extended_key vk); reflexivity.
  - unfold raw, bind, reading, send_input. cbv zeta.
    cbv [key_down key_up].
    repeat match goal with
    | |- context [SendInput_accepts os ?h ?i] =>
        destruct (SendInput_accepts os h i)
    end; simpl; do 2 eexists; do 3 (split; [reflexivity|]);
    apply down_up_intro; destruct (is_extended_key _); reflexivity.
Qed.

(** X13.  A click of a mouse button (left, middle, right, back, forward)
    is one batch of two descriptors, the one a press sends followed by the
    one a release sends; for back and forward both carry the button number
    1 and 2 as mouse data, the others 0. *)
Theorem button_click_is_press_then_release (b : Button) (st : State) :
  is_scroll_button b = false ->
  exists p r,
    sent (snd (button os b Press st)) = sent st ++ [[p]] /\
    sent (snd (button os b Release st)) = sent st ++ [[r]] /\
    sent (snd (button os b Click st)) = sent st ++ [[p; r]] /\
    exists flag_down flag_up,
      p = INPUT_MOUSE flag_down
            (match b with Back => 1 | Forward => 2 | _ => 0 end) 0 0
            (dw_extra_info (self st)) /\
      r = INPUT_MOUSE flag_up
            (match b with Back => 1 | Forward => 2 | _ => 0 end) 0 0
            (dw_extra_info (self st)) /\
      flag_down <> flag_up.
Proof.
  intros Hb.
  destruct b; try discriminate Hb;
    cbv [button key_down key_up bind reading ret];
    rewrite !send_input_sent; do 2 eexists;
    do 3 (split; [reflexivity|]);
    do 2 eexists; do 2 (split; [reflexivity|]); discriminate.
Qed.

(** X14.  The four scroll pseudo-buttons, pressed or clicked, are scroll
    calls of one notch: up and down on the vertical axis, left and right
    on the horizontal one. *)
Theorem scroll_buttons_are_scrolls (st : State) :
  button os ScrollUp Press st = scroll os (-1) Vertical st /\
  button os ScrollDown Press st = scroll os 1 Vertical st /\
  button os ScrollLeft Press st = scroll os (-1) Horizontal st /\
  button os ScrollRight Press st = scroll os 1 Horizontal st /\
  button os ScrollUp Click st = scroll os (-1) Vertical st /\
  button os ScrollDown Click st = scroll os 1 Vertical st /\
  button os ScrollLeft Click st = scroll os (-1) Horizontal st /\
  button os ScrollRight Click st = scroll os 1 Horizontal st.
Proof.
  repeat split;
    unfold button, scroll; cbv [key_down bind reading ret]; unfold send_input;
    match goal with
    | |- context [SendInput_accepts os (sent st) ?i] =>
        destruct (SendInput_accepts os (sent st) i)
    end; reflexivity.
Qed.

(** X15.  The payload of a scroll: for an amount of at most 17895697
    notches either way, [scroll] hands the sink one batch of one wheel
    descriptor whose data is [- length * 120] on the vertical axis and
    [length * 120] on the horizontal one. *)
Theorem scroll_payload (length : Z) (st : State) :
  -17895697 <= length <= 17895697 ->
  scroll os length Vertical st =
    send_input os
      [INPUT_MOUSE MOUSEEVENTF_WHEEL (- (length * 120)) 0 0
         (dw_extra_info (self st))] st /\
  scroll os length Horizontal st =
    send_input os
      [INPUT_MOUSE MOUSEEVENTF_HWHEEL (length * 120) 0 0
         (dw_extra_info (self st))] st.
Proof.
  intros H.
  unfold scroll, bind, reading, create_mouse_event, Int.mul, Int.neg,
    WHEEL_DELTA.
  rewrite (IntFacts.wrap_small (- length)) by (apply in_range_iff; lia).
  rewrite (IntFacts.wrap_small (- length * 120))
    by (apply in_range_iff; lia).
  rewrite (IntFacts.wrap_small (length * 120)) by (apply in_range_iff; lia).
  replace (- length * 120) with (- (length * 120)) by lia.
  split; reflexivity.
Qed.

(** X16.  Every call hands the sink at most one batch: the log of the
    sink is as before, or longer by one batch. *)
Theorem perform_one_batch (c : call) (st : State) :
  sent (snd (perform os c st)) = sent st \/
  exists batch, sent (snd (perform os c st)) = sent st ++ [batch].
Proof.
  assert (forall x y,
            sent (snd (move_mouse_abs os x y st)) = sent st \/
            exists batch,
              sent (snd (move_mouse_abs os x y st)) = sent st ++ [batch])
    as Habs.
  { intros x y.
    unfold move_mouse_abs, main_display, bind, throw, ret, trap, reading.
    destruct ((SM_CXSCREEN os =? 0) || (SM_CYSCREEN os =? 0)); [now left|].
    destruct (scale x _); [|now left].
    destruct (scale y _); [|now left].
    right. eexists. apply send_input_sent. }
  destruct c as [s | k d | scan d | b d | len a | x y c]; simpl perform.
  - destruct s as [|c rest]; [now left|].
    unfold text, bind, reading.
    destruct (text_loop os (self st) (uninitialized os) (String c rest) []);
      [|now left|now left].
    right. eexists. apply send_input_sent.
  - right. destruct (key_sent k d st) as (input & _ & ->). now exists input.
  - right. destruct (raw_effect os scan d st) as (input & ->).
    exists input. now destruct (SendInput_accepts os (sent st) input).
  - destruct b, d;
      cbv [button scroll key_down key_up bind reading ret];
      try (now left);
      try (right; eexists; apply send_input_sent);
      right; unfold send_input;
      match goal with
      | |- context [SendInput_accepts os (sent st) ?i] =>
          destruct (SendInput_accepts os (sent st) i)
      end; eexists; reflexivity.
  - right. unfold scroll. destruct a; cbv [bind reading];
      eexists; apply send_input_sent.
  - destruct c; [apply Habs|].
    unfold move_mouse, bind, reading, location, throw, ret.
    destruct (windows_subject_to_mouse_speed_and_acceleration_level
                (self st)).
    + right. eexists. apply send_input_sent.
    + destruct (GetCursorPos os) as [[cx cy]|]; [apply Habs | now left].
Qed.

End Batches.

Lemma button_click_is_press_then_release_witness :
  is_scroll_button Forward = false /\
  sent (snd (button desktop Forward Click (fresh Settings.default))) =
  [[INPUT_MOUSE MOUSEEVENTF_XDOWN 2 0 0 EVENT_MARKER;
    INPUT_MOUSE MOUSEEVENTF_XUP 2 0 0 EVENT_MARKER]].
Proof.
  split; [reflexivity|].
  destruct (button_click_is_press_then_release desktop Forward
              (fresh Settings.default) eq_refl)
    as (p & r & _ & _ & Hc & _).
  reflexivity.
Defined.

Lemma scroll_payload_witness :
  -17895697 <= 3 <= 17895697 /\
  scroll desktop 3 Vertical (fresh Settings.default) =
    send_input desktop
      [INPUT_MOUSE MOUSEEVENTF_WHEEL (- (3 * 120)) 0 0
         (dw_extra_info (self (fresh Settings.default)))]
      (fresh Settings.default) /\
  scroll desktop 3 Horizontal (fresh Settings.default) =
    send_input desktop
      [INPUT_MOUSE MOUSEEVENTF_HWHEEL (3 * 120) 0 0
         (dw_extra_info (self (fresh Settings.default)))]
      (fresh Settings.default).
Proof.
  assert (-17895697 <= 3 <= 17895697) as H by lia.
  split; [exact H|].
  exact (scroll_payload desktop 3 (fresh Settings.default) H).
Defined.

(** ** The marker on the descriptors *)

Section Marker.

Variable os : OS.

Lemma character_descriptors_marked b c l :
  character_descriptors os b c = Ok l -> marked (dw_extra_info b) l.
Proof.
  unfold character_descriptors, queue_key, queue_char.
  destruct (key_to_vk_total Key.Return) as [vr ->].
  destruct (key_to_vk_total Key.Tab) as [vt ->].
  rewrite u16_below.
  destruct ((char_value c =? 10) || (char_value c =? 13));
    [intros [= <-]; repeat constructor|].
  destruct (char_value c =? 9); intros [= <-]; repeat constructor.
Qed.

Lemma text_loop_marked b text input :
  text_loop os b (uninitialized os) text [] = Ok input ->
  marked (dw_extra_info b) input.
Proof.
  intros H.
  destruct (text_loop_outcome os b text) as [[_ E] | [Hnin _]];
    [congruence|].
  destruct (text_loop_descriptors os b text [] Hnin) as (ls & Hls & E).
  rewrite E in H. injection H as <-. simpl.
  unfold marked. apply Forall_concat.
  clear E Hnin.
  induction Hls as [|c l cs ls [Hl _] _ IH]; [constructor|].
  constructor; [|exact IH].
  now apply character_descriptors_marked in Hl.
Qed.

(** The batches of one call carry the marker of the object. *)
Lemma perform_marked c st :
  exists batches,
    sent (snd (perform os c st)) = sent st ++ batches /\
    Forall (marked (dw_extra_info (self st))) batches.
Proof.
  assert (forall i, marked (dw_extra_info (self st)) i ->
            exists batches,
              sent (snd (send_input os i st)) = sent st ++ batches /\
              Forall (marked (dw_extra_info (self st))) batches) as Hsend.
  { intros i Hi. exists [i]. split; [apply send_input_sent|].
    now constructor. }
  assert (exists batches,
            sent st = sent st ++ batches /\
            Forall (marked (dw_extra_info (self st))) batches) as Hnone.
  { exists []. split; [now rewrite app_nil_r | constructor]. }
  assert (forall x y,
            exists batches,
              sent (snd (move_mouse_abs os x y st)) = sent st ++ batches /\
              Forall (marked (dw_extra_info (self st))) batches) as Habs.
  { intros x y.
    unfold move_mouse_abs, main_display, bind, throw, ret, trap, reading.
    destruct ((SM_CXSCREEN os =? 0) || (SM_CYSCREEN os =? 0));
      [exact Hnone|].
    destruct (scale x _); [|exact Hnone].
    destruct (scale y _); [|exact Hnone].
    apply Hsend. repeat constructor. }
  destruct c as [s | k d | scan d | b d | len a | x y c]; simpl perform.
  - destruct s as [|c rest]; [exact Hnone|].
    unfold text, bind, reading.
    destruct (text_loop os (self st) (uninitialized os) (String c rest) [])
      eqn:E; [|exact Hnone|exact Hnone].
    apply Hsend. now apply text_loop_marked in E.
  - destruct (key_sent os k d st) as (input & Hq & ->).
    exists [input]. split; [reflexivity|]. constructor; [|constructor].
    unfold queue_key in Hq. destruct (key_to_vk_total k) as [vk Evk].
    rewrite Evk in Hq. simpl in Hq. injection Hq as <-.
    destruct d; repeat constructor.
  - destruct (raw_effect os scan d st) as (input & E).
    unfold raw, bind, reading in *. cbv zeta in *.
    match goal with
    | |- context [send_input os ?i st] =>
        destruct (send_input_outcome os i st) as [Ho | Ho];
        pose proof (send_input_sent os i st) as Hs;
        destruct (send_input os i st) as [[[] | e | ] st'];
        simpl in Ho, Hs; try discriminate Ho;
        exists [i]
    end.
    + split; [destruct d; exact Hs|]. constructor; [|constructor].
      destruct d; repeat constructor.
    + split; [exact Hs|]. constructor; [|constructor].
      destruct d; repeat constructor.
  - destruct b, d;
      cbv [button scroll key_down key_up bind reading ret];
      try exact Hnone;
      try (apply Hsend; repeat constructor);
      match goal with
      | |- context [send_input os ?i st] =>
          pose proof (send_input_sent os i st) as Hs;
          destruct (send_input os i st) as [[[] | e | ] st'];
          simpl in Hs; exists [i];
          (split; [exact Hs | repeat constructor])
      end.
  - unfold scroll. destruct a; cbv [bind reading]; apply Hsend;
      repeat constructor.
  - destruct c; [apply Habs|].
    unfold move_mouse, bind, reading, location, throw, ret.
    destruct (windows_subject_to_mouse_speed_and_acceleration_level
                (self st)).
    + apply Hsend. repeat constructor.
    + destruct (GetCursorPos os) as [[cx cy]|]; [apply Habs | exact Hnone].
Qed.

Lemma perform_all_marked cs : forall st,
  Forall (marked (dw_extra_info (self st))) (sent st) ->
  Forall (marked (dw_extra_info (self st))) (sent (perform_all os cs st)).
Proof.
  induction cs as [|c cs IH]; intros st Hst; [exact Hst|].
  simpl.
  destruct (perform_marked c st) as (batches & Hsent & Hb).
  pose proof (perform_marker os c st) as Hm.
  assert (Forall (marked (dw_extra_info (self (snd (perform os c st)))))
            (sent (snd (perform os c st)))) as Hnext.
  { rewrite Hm, Hsent. apply Forall_app. now split. }
  destruct (perform os c st) as [[[] | e | ] st']; simpl in *.
  - rewrite <- Hm. now apply IH.
  - rewrite <- Hm. now apply IH.
  - now rewrite <- Hm.
Qed.

(** X17.  Every descriptor that an instance hands to the sink, in any
    run of calls, carries the marker of the instance: the
    [windows_dw_extra_info] of its settings, or [EVENT_MARKER] when that
    is 0. *)
Theorem all_descriptors_carry_marker (settings : Settings.t)
    (cs : list call) :
  Forall (Forall (fun i =>
            extra_info i = get_marker_value (Bego_new settings)))
         (sent (perform_all os cs (fresh settings))).
Proof.
  apply (perform_all_marked cs (fresh settings)). constructor.
Qed.

End Marker.

(** ** What a text sends *)

Section TextBatch.

Variable os : OS.

Lemma concat_length_two (chars : list ascii) (ls : list (list INPUT)) P :
  Forall2 (fun c l => P c l) chars ls ->
  (forall c l, P c l -> List.length l = 2%nat) ->
  List.length (List.concat ls) = (2 * List.length chars)%nat.
Proof.
  intros H Hlen. induction H as [|c l cs ls Hc _ IH]; [reflexivity|].
  simpl List.concat. rewrite length_app, IH, (Hlen c l Hc). simpl. lia.
Qed.

Lemma length_list_ascii_of_string s :
  List.length (list_ascii_of_string s) = String.length s.
Proof. induction s as [|c s IH]; simpl; congruence. Qed.

(** X18.  A text of [n] characters, none of them null, goes to the sink
    as one batch of exactly [2 * n] descriptors. *)
Theorem text_batch_length (s : string) (st : State) :
  s <> EmptyString ->
  ~ In Ascii.zero (list_ascii_of_string s) ->
  exists input,
    text os s st = send_input os input st /\
    List.length input = (2 * String.length s)%nat.
Proof.
  intros Hs Hnull.
  destruct (text_loop_descriptors os (self st) s [] Hnull)
    as (ls & Hls & Els).
  exists (List.concat ls). split.
  - destruct s as [|c rest]; [now elim Hs|].
    unfold text, bind, reading. now rewrite Els.
  - rewrite <- length_list_ascii_of_string.
    apply (concat_length_two _ _ _ Hls).
    intros c l [Hl _].
    destruct (character_descriptors_two os (self st) c) as (d & u & E).
    rewrite E in Hl. now injection Hl as <-.
Qed.

Lemma code_unit_spec c : Int.u16 (Int.u16 (char_value c)) = code_unit c.
Proof. destruct c as [[] [] [] [] [] [] [] []]; reflexivity. Qed.

Lemma plain_character_descriptors b c :
  plain_char c = true ->
  character_descriptors os b c = Ok (unicode_click b (code_unit c)).
Proof.
  unfold plain_char. cbn [existsb]. intros H.
  apply negb_true_iff in H.
  repeat (apply orb_false_iff in H; destruct H as [? H]).
  rewrite (Z.eqb_sym (char_value c)) in *.
  unfold character_descriptors, queue_char.
  rewrite (Z.eqb_sym (char_value c) 10), (Z.eqb_sym (char_value c) 13),
    (Z.eqb_sym (char_value c) 9).
  repeat match goal with E : (_ =? _) = false |- _ => rewrite E; clear E end.
  cbn [orb]. rewrite u16_below, code_unit_spec. reflexivity.
Qed.

(** X19.  The code units of a text: a text without null, tab, newline and
    carriage return goes to the sink as one batch in which each [char]
    contributes the down and up descriptors of a Unicode injection of one
    code unit, the byte itself for bytes below 128 and [0xFF00 + byte]
    for the others ([char] being signed, the conversion to [wchar_t]
    extends the sign): the text is not decoded as UTF-8. *)
Theorem text_code_units (s : string) (st : State) :
  s <> EmptyString ->
  Forall (fun c => plain_char c = true) (list_ascii_of_string s) ->
  text os s st =
  send_input os
    (flat_map (fun c => unicode_click (self st) (code_unit c))
       (list_ascii_of_string s)) st.
Proof.
  intros Hs Hplain.
  assert (~ In Ascii.zero (list_ascii_of_string s)) as Hnull.
  { intros Hin. rewrite Forall_forall in Hplain.
    specialize (Hplain _ Hin). discriminate Hplain. }
  destruct (text_loop_descriptors os (self st) s [] Hnull)
    as (ls & Hls & Els).
  assert (List.concat ls =
          flat_map (fun c => unicode_click (self st) (code_unit c))
            (list_ascii_of_string s)) as Hconcat.
  { clear Els Hnull Hs.
    induction Hls as [|c l cs ls [Hl _] _ IH]; [reflexivity|].
    apply Forall_cons_iff in Hplain as [Hc Hcs].
    rewrite (plain_character_descriptors _ _ Hc) in Hl.
    injection Hl as <-. simpl. now rewrite IH. }
  destruct s as [|c rest]; [now elim Hs|].
  unfold text, bind, reading. now rewrite Els, <- Hconcat.
Qed.

End TextBatch.

Lemma text_batch_length_witness :
  String "h" (String "010" "i") <> EmptyString /\
  ~ In Ascii.zero (list_ascii_of_string (String "h" (String "010" "i"))) /\
  exists input,
    text desktop (String "h" (String "010" "i")) (fresh Settings.default) =
    send_input desktop input (fresh Settings.default) /\
    List.length input = (2 * String.length (String "h" (String "010" "i")))%nat.
Proof.
  assert (String "h" (String "010" "i") <> EmptyString) as Hs
    by discriminate.
  assert (~ In Ascii.zero
              (list_ascii_of_string (String "h" (String "010" "i"))))
    as Hnull.
  { simpl. intros [H | [H | [H | []]]]; discriminate H. }
  split; [exact Hs|]. split; [exact Hnull|].
  exact (text_batch_length desktop _ (fresh Settings.default) Hs Hnull).
Defined.

Lemma text_code_units_witness :
  String "a" (String "233" "") <> EmptyString /\
  Forall (fun c => plain_char c = true)
    (list_ascii_of_string (String "a" (String "233" ""))) /\
  text desktop (String "a" (String "233" "")) (fresh Settings.default) =
  send_input desktop
    [INPUT_KEYBOARD 4 0 0x61 EVENT_MARKER;
     INPUT_KEYBOARD 6 0 0x61 EVENT_MARKER;
     INPUT_KEYBOARD 4 0 0xFFE9 EVENT_MARKER;
     INPUT_KEYBOARD 6 0 0xFFE9 EVENT_MARKER]
    (fresh Settings.default).
Proof.
  assert (String "a" (String "233" "") <> EmptyString) as Hs
    by discriminate.
  assert (Forall (fun c => plain_char c = true)
            (list_ascii_of_string (String "a" (String "233" ""))))
    as Hplain by (repeat constructor).
  split; [exact Hs|]. split; [exact Hplain|].
  exact (text_code_units desktop _ (fresh Settings.default) Hs Hplain).
Defined.

(** ** The destructor *)

Section TeardownLoops.

Variable os : OS.

(** X20.  With [release_keys_when_dropped] off, or with no key and no
    scan code held, the destructor returns at once: nothing is handed to
    the sink and the state is as before. *)
Theorem Bego_drop_nothing_to_release (st : State) :
  release_keys_when_dropped (self st) = false \/ held (self st) = ([], []) ->
  Bego_drop os st = (Dropped, st).
Proof.
  intros [Hflag | Hheld]; unfold Bego_drop.
  - now rewrite Hflag.
  - unfold held in Hheld. injection Hheld as Hk Hs.
    destruct (release_keys_when_dropped (self st)); [|reflexivity].
    cbn [negb]. unfold Vec.size. rewrite Hk. cbn.
    unfold Vec.size. rewrite Hs. reflexivity.
Qed.

Lemma key_release_rejected k st :
  rejecting os ->
  exists input,
    key os k Release st = (Throw Simulate, mkState (self st) (sent st ++ [input])).
Proof.
  intros Hrej. destruct (key_effect os k Release st) as (input & _ & ->).
  exists input. now rewrite Hrej.
Qed.

Lemma raw_release_rejected scan st :
  rejecting os ->
  exists input,
    raw os scan Release st =
    (Throw Simulate, mkState (self st) (sent st ++ [input])).
Proof.
  intros Hrej. destruct (raw_effect os scan Release st) as (input & ->).
  exists input. now rewrite Hrej.
Qed.

Lemma release_keys_rejected suf :
  rejecting os ->
  forall pre st,
    Vec.elems (held_keys (self st)) = pre ++ suf ->
    release_keys os (seq (List.length pre) (List.length suf)) st =
    (Dropped, perform_all os (map (fun k => call_key k Release) suf) st) /\
    self (perform_all os (map (fun k => call_key k Release) suf) st)
    = self st.
Proof.
  intros Hrej. induction suf as [|k suf IH]; intros pre st Helems.
  - split; reflexivity.
  - cbn [List.length seq release_keys map perform_all perform].
    rewrite Helems, nth_error_app2, Nat.sub_diag by lia. cbn [nth_error].
    destruct (key_release_rejected k st Hrej) as (input & ->).
    specialize (IH (pre ++ [k]) (mkState (self st) (sent st ++ [input]))).
    rewrite length_app, Nat.add_1_r in IH. cbn [self] in IH.
    apply IH. now rewrite <- app_assoc.
Qed.

Lemma release_scancodes_rejected suf :
  rejecting os ->
  forall pre st,
    Vec.elems (held_scancodes (self st)) = pre ++ suf ->
    release_scancodes os (seq (List.length pre) (List.length suf)) st =
    (Dropped, perform_all os (map (fun s => call_raw s Release) suf) st) /\
    self (perform_all os (map (fun s => call_raw s Release) suf) st)
    = self st.
Proof.
  intros Hrej. induction suf as [|s suf IH]; intros pre st Helems.
  - split; reflexivity.
  - cbn [List.length seq release_scancodes map perform_all perform].
    rewrite Helems, nth_error_app2, Nat.sub_diag by lia. cbn [nth_error].
    destruct (raw_release_rejected s st Hrej) as (input & ->).
    specialize (IH (pre ++ [s]) (mkState (self st) (sent st ++ [input]))).
    rewrite length_app, Nat.add_1_r in IH. cbn [self] in IH.
    apply IH. now rewrite <- app_assoc.
Qed.

Lemma perform_all_key_releases_app keys rest :
  rejecting os ->
  forall st,
    perform_all os (map (fun k => call_key k Release) keys ++ rest) st =
    perform_all os rest
      (perform_all os (map (fun k => call_key k Release) keys) st).
Proof.
  intros Hrej. induction keys as [|k keys IH]; intros st; [reflexivity|].
  cbn [map app perform_all perform].
  destruct (key_release_rejected k st Hrej) as (input & ->). apply IH.
Qed.

(** X21.  Teardown with a sink that rejects every batch: the destructor
    attempts the release of every held key, in the order of the vector,
    then of every held scan code, catches each failure and returns; what
    it does is what a caller does who makes these calls one after the
    other and ignores their failures, and the object holds what it held. *)
Theorem Bego_drop_rejected (st : State) :
  rejecting os ->
  release_keys_when_dropped (self st) = true ->
  Bego_drop os st = (Dropped, perform_all os (releases (self st)) st) /\
  self (perform_all os (releases (self st)) st) = self st.
Proof.
  intros Hrej Hflag. unfold Bego_drop, releases, held. rewrite Hflag.
  cbn [negb fst snd].
  rewrite (perform_all_key_releases_app _ _ Hrej).
  destruct (release_keys_rejected (Vec.elems (held_keys (self st))) Hrej
              [] st eq_refl) as [Ek Sk].
  cbn [List.length] in Ek. unfold Vec.size. rewrite Ek.
  set (st1 := perform_all os _ st) in *.
  destruct (release_scancodes_rejected
              (Vec.elems (held_scancodes (self st1))) Hrej [] st1 eq_refl)
    as [Es Ss].
  cbn [List.length] in Es. rewrite Es. rewrite Sk in *.
  split; [reflexivity|]. now rewrite Ss.
Qed.

(** X22.  Teardown with a held key whose release the sink accepts: the
    destructor makes that one release, which erases the key from the
    vector that the loop walks; the iterators of the loop are invalid from
    there, so that nothing the source says settles what happens to the
    keys held behind the first. *)
Theorem Bego_drop_invalidates (k : Key.t) (rest : list Key.t)
    (st st' : State) :
  release_keys_when_dropped (self st) = true ->
  fst (held (self st)) = k :: rest ->
  key os k Release st = (Ok tt, st') ->
  Bego_drop os st = (Invalidated, st').
Proof.
  intros Hflag Hheld Hkey. unfold held in Hheld. cbn [fst] in Hheld.
  unfold Bego_drop. rewrite Hflag. cbn [negb].
  unfold Vec.size at 1. rewrite Hheld. cbn [List.length seq release_keys].
  rewrite Hheld. cbn [nth_error]. rewrite Hkey.
  rewrite (key_release_shrinks os k st st'); [reflexivity| |exact Hkey].
  rewrite Hheld. now left.
Qed.

End TeardownLoops.

Lemma locked_desktop_rejecting : rejecting locked_desktop.
Proof. intros h i. reflexivity. Qed.

Lemma Bego_drop_nothing_to_release_witness :
  (release_keys_when_dropped (self (fresh Settings.default)) = false \/
   held (self (fresh Settings.default)) = ([], [])) /\
  Bego_drop desktop (fresh Settings.default)
  = (Dropped, fresh Settings.default).
Proof.
  assert (release_keys_when_dropped (self (fresh Settings.default)) = false \/
          held (self (fresh Settings.default)) = ([], [])) as H
    by (right; reflexivity).
  split; [exact H|].
  exact (Bego_drop_nothing_to_release desktop (fresh Settings.default) H).
Defined.

Lemma Bego_drop_rejected_witness :
  rejecting locked_desktop /\
  release_keys_when_dropped
    (self (perform_all desktop
             [call_key Key.A Press; call_key Key.B Press; call_raw 30 Press]
             (fresh Settings.default))) = true /\
  Bego_drop locked_desktop
    (perform_all desktop
       [call_key Key.A Press; call_key Key.B Press; call_raw 30 Press]
       (fresh Settings.default))
  = (Dropped,
     perform_all locked_desktop
       [call_key Key.A Release; call_key Key.B Release; call_raw 30 Release]
       (perform_all desktop
          [call_key Key.A Press; call_key Key.B Press; call_raw 30 Press]
          (fresh Settings.default))).
Proof.
  split; [exact locked_desktop_rejecting|]. split; [reflexivity|].
  exact (proj1 (Bego_drop_rejected locked_desktop
                  (perform_all desktop
                     [call_key Key.A Press; call_key Key.B Press;
                      call_raw 30 Press] (fresh Settings.default))
                  locked_desktop_rejecting eq_refl)).
Defined.

Lemma Bego_drop_invalidates_witness :
  release_keys_when_dropped
    (self (perform_all desktop [call_key Key.A Press; call_key Key.B Press]
             (fresh Settings.default))) = true /\
  fst (held (self (perform_all desktop
                     [call_key Key.A Press; call_key Key.B Press]
                     (fresh Settings.default)))) = Key.A :: [Key.B] /\
  key desktop Key.A Release
    (perform_all desktop [call_key Key.A Press; call_key Key.B Press]
       (fresh Settings.default))
  = (Ok tt,
     snd (key desktop Key.A Release
            (perform_all desktop [call_key Key.A Press; call_key Key.B Press]
               (fresh Settings.default)))) /\
  Bego_drop desktop
    (perform_all desktop [call_key Key.A Press; call_key Key.B Press]
       (fresh Settings.default))
  = (Invalidated,
     snd (key desktop Key.A Release
            (perform_all desktop [call_key Key.A Press; call_key Key.B Press]
               (fresh Settings.default)))).
Proof.
  split; [reflexivity|]. split; [reflexivity|]. split; [reflexivity|].
  exact (Bego_drop_invalidates desktop Key.A [Key.B]
           (perform_all desktop [call_key Key.A Press; call_key Key.B Press]
              (fresh Settings.default))
           (snd (key desktop Key.A Release
                   (perform_all desktop
                      [call_key Key.A Press; call_key Key.B Press]
                      (fresh Settings.default))))
           eq_refl eq_refl eq_refl).
Defined.

(** ** The scaling on a display *)

Lemma scale_on_display_exact x dim :
  2 <= dim <= 32769 -> 0 <= x <= dim - 1 ->
  scale x (Int.sub dim 1) =
  Some ((x * 65535 + (dim - 1) / 2) / (dim - 1)).
Proof.
  intros Hdim Hx.
  assert (0 <= (dim - 1) / 2 < dim - 1) as Hhalf.
  { split; [apply Z.div_pos; lia | apply Z.div_lt; lia]. }
  assert (sign x = 1) as Hs by (unfold sign; destruct (Z.leb_spec 0 x); lia).
  rewrite scale_exact.
  - unfold nearest_scale. rewrite Hs, Z.mul_1_r.
    now rewrite Z.quot_div_nonneg by lia.
  - change Int.max_signed with 2147483647. lia.
  - apply in_range_iff. rewrite Hs. lia.
Qed.

(** X23.  The ends of the display: on a display of 2 to 32769 pixels the
    first column (or row) is sent as 0 and the last one as 65535. *)
Theorem scale_endpoints (dim : Z) :
  2 <= dim <= 32769 ->
  scale 0 (Int.sub dim 1) = Some 0 /\
  scale (dim - 1) (Int.sub dim 1) = Some 65535.
Proof.
  intros Hdim.
  assert (0 <= (dim - 1) / 2 < dim - 1) as Hhalf.
  { split; [apply Z.div_pos; lia | apply Z.div_lt; lia]. }
  rewrite !scale_on_display_exact by lia. split; f_equal.
  - apply Z.div_small. lia.
  - replace ((dim - 1) * 65535 + (dim - 1) / 2)
      with ((dim - 1) / 2 + 65535 * (dim - 1)) by lia.
    rewrite Z.div_add by lia. rewrite Z.div_small by lia. reflexivity.
Qed.

(** X24.  The scaling keeps the order: on a display of 2 to 32769 pixels
    a position further right (or down) is never sent as a smaller
    coordinate. *)
Theorem scale_monotone (dim x x' : Z) :
  2 <= dim <= 32769 -> 0 <= x -> x <= x' -> x' <= dim - 1 ->
  exists n n',
    scale x (Int.sub dim 1) = Some n /\
    scale x' (Int.sub dim 1) = Some n' /\
    n <= n'.
Proof.
  intros Hdim H0 Hxx Hx'.
  rewrite !scale_on_display_exact by lia.
  do 2 eexists. split; [reflexivity|]. split; [reflexivity|].
  apply Z.div_le_mono; lia.
Qed.

(** X25.  The scaling rounds to the nearest: the coordinate [n] sent for
    the position [x] of a display of 2 to 32769 pixels differs from the
    exact value [x * 65535 / (dim - 1)] by at most one half, that is
    [2 * |n * (dim - 1) - x * 65535| <= dim - 1]. *)
Theorem scale_rounds_to_nearest (dim x : Z) :
  2 <= dim <= 32769 -> 0 <= x <= dim - 1 ->
  exists n,
    scale x (Int.sub dim 1) = Some n /\
    2 * Z.abs (n * (dim - 1) - x * 65535) <= dim - 1.
Proof.
  intros Hdim Hx.
  rewrite scale_on_display_exact by lia.
  eexists. split; [reflexivity|].
  set (w := dim - 1) in *. set (a := x * 65535) in *.
  assert (1 <= w) as Hw by (subst w; lia).
  pose proof (Z.div_mod w 2 ltac:(lia)) as Hw2.
  pose proof (Z.mod_pos_bound w 2 ltac:(lia)) as Hw2b.
  set (h := w / 2) in *.
  pose proof (Z.div_mod (a + h) w ltac:(lia)) as Hq.
  pose proof (Z.mod_pos_bound (a + h) w ltac:(lia)) as Hr.
  set (q := (a + h) / w) in *. set (r := (a + h) mod w) in *.
  clearbody q r h a. nia.
Qed.

(** X26.  The scaling is odd: a position left of (or above) the origin
    is sent as the opposite of the coordinate of its mirror image,
    [scale (- x) = - scale x]. *)
Theorem scale_odd (dim x : Z) :
  2 <= dim <= 32769 -> 0 <= x <= dim - 1 ->
  exists n,
    scale x (Int.sub dim 1) = Some n /\
    scale (- x) (Int.sub dim 1) = Some (- n).
Proof.
  intros Hdim Hx.
  assert (0 <= (dim - 1) / 2 < dim - 1) as Hhalf.
  { split; [apply Z.div_pos; lia | apply Z.div_lt; lia]. }
  exists (nearest_scale x dim).
  assert (sign x = 1) as Hs by (unfold sign; destruct (Z.leb_spec 0 x); lia).
  split.
  - apply scale_exact; [change Int.max_signed with 2147483647; lia|].
    apply in_range_iff. rewrite Hs. lia.
  - destruct (Z.eq_dec x 0) as [-> | Hx0].
    + change (- 0) with 0.
      rewrite scale_exact;
        [| change Int.max_signed with 2147483647; lia
         | apply in_range_iff; change (sign 0) with 1; lia].
      f_equal. unfold nearest_scale. change (sign 0) with 1.
      rewrite Z.quot_div_nonneg by lia.
      rewrite Z.div_small by lia. reflexivity.
    + assert (sign (- x) = -1) as Hn
        by (unfold sign; destruct (Z.leb_spec 0 (- x)); lia).
      rewrite scale_exact;
        [| change Int.max_signed with 2147483647; lia
         | apply in_range_iff; rewrite Hn; lia].
      f_equal. unfold nearest_scale. rewrite Hn, Hs.
      replace (- x * 65535 + (dim - 1) / 2 * -1)
        with (- (x * 65535 + (dim - 1) / 2 * 1)) by lia.
      apply Z.quot_opp_l. lia.
Qed.

Lemma scale_endpoints_witness :
  2 <= 1920 <= 32769 /\
  scale 0 (Int.sub 1920 1) = Some 0 /\
  scale (1920 - 1) (Int.sub 1920 1) = Some 65535.
Proof.
  assert (2 <= 1920 <= 32769) as H by lia.
  split; [exact H | exact (scale_endpoints 1920 H)].
Defined.

Lemma scale_monotone_witness :
  2 <= 1920 <= 32769 /\ 0 <= 82 /\ 82 <= 83 /\ 83 <= 1920 - 1 /\
  exists n n',
    scale 82 (Int.sub 1920 1) = Some n /\
    scale 83 (Int.sub 1920 1) = Some n' /\
    n <= n'.
Proof.
  assert (2 <= 1920 <= 32769) as H by lia.
  assert (0 <= 82) as H0 by lia.
  assert (82 <= 83) as H1 by lia.
  assert (83 <= 1920 - 1) as H2 by lia.
  split; [exact H|]. split; [exact H0|]. split; [exact H1|].
  split; [exact H2|].
  exact (scale_monotone 1920 82 83 H H0 H1 H2).
Defined.

Lemma scale_rounds_to_nearest_witness :
  2 <= 1920 <= 32769 /\ 0 <= 83 <= 1920 - 1 /\
  exists n,
    scale 83 (Int.sub 1920 1) = Some n /\
    2 * Z.abs (n * (1920 - 1) - 83 * 65535) <= 1920 - 1.
Proof.
  assert (2 <= 1920 <= 32769) as H by lia.
  assert (0 <= 83 <= 1920 - 1) as Hx by lia.
  split; [exact H|]. split; [exact Hx|].
  exact (scale_rounds_to_nearest 1920 83 H Hx).
Defined.

Lemma scale_odd_witness :
  2 <= 1920 <= 32769 /\ 0 <= 83 <= 1920 - 1 /\
  exists n,
    scale 83 (Int.sub 1920 1) = Some n /\
    scale (- 83) (Int.sub 1920 1) = Some (- n).
Proof.
  assert (2 <= 1920 <= 32769) as H by lia.
  assert (0 <= 83 <= 1920 - 1) as Hx by lia.
  split; [exact H|]. split; [exact Hx|].
  exact (scale_odd 1920 83 H Hx).
Defined.

(** ** Moves that cannot be made *)

Section MoveFailures.

Variable os : OS.

(** X27.  Without a display (a metric of the main display is 0) an
    absolute move throws [Simulate] and sends nothing, and so does a
    relative move that bypasses the acceleration; a relative move subject
    to the acceleration asks for no display and sends its one descriptor
    with the deltas as given. *)
Theorem move_mouse_without_display (x y : Z) (st : State) :
  SM_CXSCREEN os = 0 \/ SM_CYSCREEN os = 0 ->
  move_mouse os x y Abs st = (Throw Simulate, st) /\
  (windows_subject_to_mouse_speed_and_acceleration_level (self st) = false ->
   fst (move_mouse os x y Rel st) = Throw Simulate /\
   snd (move_mouse os x y Rel st) = st) /\
  (windows_subject_to_mouse_speed_and_acceleration_level (self st) = true ->
   move_mouse os x y Rel st =
   send_input os
     [INPUT_MOUSE MOUSEEVENTF_MOVE 0 x y (dw_extra_info (self st))] st).
Proof.
  intros Hdisplay.
  assert (forall x y, move_mouse_abs os x y st = (Throw Simulate, st))
    as Habs.
  { intros x' y'. unfold move_mouse_abs, main_display, bind, throw.
    destruct Hdisplay as [-> | ->]; [reflexivity|].
    now rewrite orb_true_r. }
  split; [apply Habs|]. split; intros Haccel.
  - unfold move_mouse, bind, reading, location, throw, ret.
    rewrite Haccel.
    destruct (GetCursorPos os) as [[cx cy]|]; [|now split].
    now rewrite Habs.
  - unfold move_mouse, bind, reading. now rewrite Haccel.
Qed.

(** X28.  When the pointer position cannot be read, a relative move that
    bypasses the acceleration throws [Simulate] and sends nothing. *)
Theorem move_mouse_without_pointer (x y : Z) (st : State) :
  GetCursorPos os = None ->
  windows_subject_to_mouse_speed_and_acceleration_level (self st) = false ->
  move_mouse os x y Rel st = (Throw Simulate, st).
Proof.
  intros Hpos Haccel.
  unfold move_mouse, bind, reading, location, throw.
  now rewrite Haccel, Hpos.
Qed.

(** X29.  On a display one pixel wide or high an absolute move divides
    by zero ([dimension - 1] is the divisor): the call neither returns
    nor throws, and nothing is sent. *)
Theorem move_mouse_one_pixel_traps (x y : Z) (st : State) :
  SM_CXSCREEN os = 1 /\ SM_CYSCREEN os <> 0 \/
  SM_CYSCREEN os = 1 /\ SM_CXSCREEN os <> 0 ->
  move_mouse os x y Abs st = (Trap, st).
Proof.
  intros H.
  unfold move_mouse, move_mouse_abs, main_display, bind, throw, ret, trap.
  assert ((SM_CXSCREEN os =? 0) || (SM_CYSCREEN os =? 0) = false) as ->.
  { apply orb_false_iff. rewrite !Z.eqb_neq. lia. }
  destruct H as [[-> _] | [-> _]].
  - reflexivity.
  - change (scale y (Int.sub 1 1)) with (@None Z).
    now destruct (scale x _).
Qed.

End MoveFailures.

Lemma move_mouse_without_display_witness :
  (SM_CXSCREEN headless = 0 \/ SM_CYSCREEN headless = 0) /\
  move_mouse headless 10 10 Abs (fresh Settings.default)
  = (Throw Simulate, fresh Settings.default).
Proof.
  assert (SM_CXSCREEN headless = 0 \/ SM_CYSCREEN headless = 0) as H
    by (left; reflexivity).
  split; [exact H|].
  exact (proj1 (move_mouse_without_display headless 10 10
                  (fresh Settings.default) H)).
Defined.

Lemma move_mouse_without_pointer_witness :
  GetCursorPos no_pointer = None /\
  windows_subject_to_mouse_speed_and_acceleration_level
    (self (fresh Settings.default)) = false /\
  move_mouse no_pointer 5 5 Rel (fresh Settings.default)
  = (Throw Simulate, fresh Settings.default).
Proof.
  split; [reflexivity|]. split; [reflexivity|].
  exact (move_mouse_without_pointer no_pointer 5 5 (fresh Settings.default)
           eq_refl eq_refl).
Defined.

Lemma move_mouse_one_pixel_traps_witness :
  (SM_CXSCREEN one_pixel_wide = 1 /\ SM_CYSCREEN one_pixel_wide <> 0 \/
   SM_CYSCREEN one_pixel_wide = 1 /\ SM_CXSCREEN one_pixel_wide <> 0) /\
  move_mouse one_pixel_wide 0 5 Abs (fresh Settings.default)
  = (Trap, fresh Settings.default).
Proof.
  assert (SM_CXSCREEN one_pixel_wide = 1 /\ SM_CYSCREEN one_pixel_wide <> 0 \/
          SM_CYSCREEN one_pixel_wide = 1 /\ SM_CXSCREEN one_pixel_wide <> 0)
    as H by (left; split; [reflexivity | discriminate]).
  split; [exact H|].
  exact (move_mouse_one_pixel_traps one_pixel_wide 0 5
           (fresh Settings.default) H).
Defined.
